(** * Contractor & labour workspace: store and dashboard derivations

    A shallow embedding of [src/types/index.ts], of the zustand store in
    [src/store/useWorkspaceStore.ts] and of the memoised derivations at the
    head of [src/components/AgentDashboard.tsx].

    Conventions.
    - A TypeScript [number] held in a record is a rational ([Q]), read as
      the value of a binary64 number; the result of a division, which
      JavaScript never refuses, is a [JsNumber] (a rational, an infinity or
      NaN).  The two computations whose outcome hangs on the last bit are
      carried out in binary64: the percentage of the crew health
      ([round64]: 53 significant bits, ties to even; a head count over a
      whole-number target stays within the normal range) and the budget
      block of [keyRisks] ([js_number] and the [Number_] operations, with
      overflow to the infinities, subnormal numbers and NaN).  [totals]
      keeps the sums of its two [reduce] calls exact; the sign of zero is
      not modelled.
    - An optional field ([phone?], [notes?], ...) is an [option string].
    - [Omit<T, "id">] is the record [T.draft]; [T.make] is the object
      literal [{ id: ..., ...input }].
    - [crypto.randomUUID()] belongs to the platform: the value it returned
      is an explicit argument of the operation that called it.
    - [date-fns] belongs to a library: [parseISO] and [differenceInDays]
      are the fields of the class [DateFns]. *)

From Stdlib Require Import List String Ascii Bool Arith ZArith QArith Qround.
From Stdlib Require Import Qpower Qabs Lia Lqa Permutation DecimalString.
Import ListNotations.

Local Open Scope string_scope.
Local Open Scope list_scope.

(** ** src/types/index.ts *)

Inductive LabourStatus : Set := present | absent | leave | standby.

Inductive PaymentCategory : Set := advance | material | bonus | deduction.

Definition LabourStatus_eqb (a b : LabourStatus) : bool :=
  match a, b with
  | present, present | absent, absent | leave, leave | standby, standby => true
  | _, _ => false
  end.

Definition PaymentCategory_eqb (a b : PaymentCategory) : bool :=
  match a, b with
  | advance, advance | material, material | bonus, bonus
  | deduction, deduction => true
  | _, _ => false
  end.

Module Worker.
Record draft : Type := Draft {
  d_name : string;
  d_trade : string;
  d_dailyRate : Q;
  d_status : LabourStatus;
  d_phone : option string;
  d_contractorId : string
}.

Record t : Type := Make {
  id : string;
  name : string;
  trade : string;
  dailyRate : Q;
  status : LabourStatus;
  phone : option string;
  contractorId : string
}.

(** [{ id: uuid, ...worker }] *)
Definition make (uuid : string) (d : draft) : t :=
  Make uuid (d_name d) (d_trade d) (d_dailyRate d) (d_status d)
       (d_phone d) (d_contractorId d).

(** [worker.status = status] *)
Definition set_status (st : LabourStatus) (w : t) : t :=
  Make (id w) (name w) (trade w) (dailyRate w) st (phone w) (contractorId w).
End Worker.

Module Contractor.
Record t : Type := Make {
  id : string;
  name : string;
  company : string;
  scope : string;
  budget : Q;
  startDate : string;
  endDate : string;
  crewSizeTarget : Q;
  notes : option string
}.
End Contractor.

Module AttendanceRecord.
Record draft : Type := Draft {
  d_workerId : string;
  d_date : string;
  d_hoursWorked : Q;
  d_presence : LabourStatus;
  d_remarks : option string;
  d_site : string
}.

Record t : Type := Make {
  id : string;
  workerId : string;
  date : string;
  hoursWorked : Q;
  presence : LabourStatus;
  remarks : option string;
  site : string
}.

(** [{ id: uuid, ...input }] *)
Definition make (uuid : string) (d : draft) : t :=
  Make uuid (d_workerId d) (d_date d) (d_hoursWorked d) (d_presence d)
       (d_remarks d) (d_site d).

(** [record.presence = presence] *)
Definition set_presence (p : LabourStatus) (r : t) : t :=
  Make (id r) (workerId r) (date r) (hoursWorked r) p (remarks r) (site r).
End AttendanceRecord.

Module Payment.
Record draft : Type := Draft {
  d_workerId : string;
  d_amount : Q;
  d_date : string;
  d_category : PaymentCategory;
  d_note : option string
}.

Record t : Type := Make {
  id : string;
  workerId : string;
  amount : Q;
  date : string;
  category : PaymentCategory;
  note : option string
}.

(** [{ id: uuid, ...input }] *)
Definition make (uuid : string) (d : draft) : t :=
  Make uuid (d_workerId d) (d_amount d) (d_date d) (d_category d) (d_note d).
End Payment.

(** ** src/store/useWorkspaceStore.ts *)

(** The seven dates the module formats from [today] when it is loaded. *)
Record SeedDates : Type := {
  monthStart : string;      (* format(new Date(y, m, 1)) *)
  nextMonthEnd : string;    (* format(new Date(y, m + 2, 0)) *)
  monthFifth : string;      (* format(new Date(y, m, 5)) *)
  nextMonthTwentieth : string; (* format(new Date(y, m + 1, 20)) *)
  todayIso : string;        (* format(today) *)
  twoDaysAgo : string;      (* format(new Date(y, m, d - 2)) *)
  weekAgo : string          (* format(new Date(y, m, d - 7)) *)
}.

Record WorkspaceState : Type := MkState {
  contractors : list Contractor.t;
  workers : list Worker.t;
  attendance : list AttendanceRecord.t;
  payments : list Payment.t;
  selectedContractorId : option string
}.

(** [list.find(p)] followed by an assignment to the object found: the first
    element that satisfies [p] is replaced, nothing else is touched. *)
Fixpoint update_first {A : Type} (p : A -> bool) (f : A -> A) (l : list A)
  : list A :=
  match l with
  | [] => []
  | x :: r => if p x then f x :: r else x :: update_first p f r
  end.

Definition initialContractors (sd : SeedDates) : list Contractor.t :=
  [ Contractor.Make "c1" "Skyline Mechanical" "Skyline Mechanical"
      "High-rise plumbing installation & QA" 180000
      (monthStart sd) (nextMonthEnd sd) 12
      (Some "Key milestone: pressure test every Wednesday.");
    Contractor.Make "c2" "BlueWave Piping" "BlueWave Piping"
      "Basement drainage rerouting" 95000
      (monthFifth sd) (nextMonthTwentieth sd) 8
      (Some "Coordinate with civil to avoid conduit clashes.") ].

Definition initialWorkers : list Worker.t :=
  [ Worker.Make "w1" "Priya Sharma" "Pipe Fitter" 4200 present
      (Some "+91 98765 43210") "c1";
    Worker.Make "w2" "Akash Patel" "Welder" 4600 present
      (Some "+91 93210 76543") "c1";
    Worker.Make "w3" "Michael Lopez" "Foreman" 5800 leave
      (Some "+1 415-555-2010") "c2";
    Worker.Make "w4" "Lily Chen" "Assistant" 3600 standby None "c2" ].

Definition initialAttendance (sd : SeedDates) : list AttendanceRecord.t :=
  [ AttendanceRecord.Make "a1" "w1" (todayIso sd) 8 present
      (Some "Stack 12 inspection passed") "Tower B level 21";
    AttendanceRecord.Make "a2" "w2" (todayIso sd) 7.5 present
      (Some "Pressure test follow-up") "Tower B roof";
    AttendanceRecord.Make "a3" "w3" (todayIso sd) 0 leave
      (Some "Family emergency") "Basement shaft" ].

Definition initialPayments (sd : SeedDates) : list Payment.t :=
  [ Payment.Make "p1" "w1" 12000 (twoDaysAgo sd) advance
      (Some "Rotation bonus");
    Payment.Make "p2" "w2" 18000 (weekAgo sd) material
      (Some "Gas cylinder procurement") ].

(** [initialContractors[0]?.id ?? null] *)
Definition initialState (sd : SeedDates) : WorkspaceState :=
  MkState (initialContractors sd) initialWorkers (initialAttendance sd)
          (initialPayments sd)
          (match initialContractors sd with
           | c :: _ => Some (Contractor.id c)
           | [] => None
           end).

Definition setSelectedContractor (id : option string) (s : WorkspaceState)
  : WorkspaceState :=
  MkState (contractors s) (workers s) (attendance s) (payments s) id.

(** [state.attendance.unshift({ id: crypto.randomUUID(), ...input })] *)
Definition addAttendance (uuid : string) (input : AttendanceRecord.draft)
  (s : WorkspaceState) : WorkspaceState :=
  MkState (contractors s) (workers s)
          (AttendanceRecord.make uuid input :: attendance s)
          (payments s) (selectedContractorId s).

Definition updateAttendancePresence (id : string) (presence : LabourStatus)
  (s : WorkspaceState) : WorkspaceState :=
  MkState (contractors s) (workers s)
          (update_first (fun item => String.eqb (AttendanceRecord.id item) id)
                        (AttendanceRecord.set_presence presence)
                        (attendance s))
          (payments s) (selectedContractorId s).

(** [state.payments.unshift({ id: crypto.randomUUID(), ...input })] *)
Definition addPayment (uuid : string) (input : Payment.draft)
  (s : WorkspaceState) : WorkspaceState :=
  MkState (contractors s) (workers s) (attendance s)
          (Payment.make uuid input :: payments s) (selectedContractorId s).

Definition updateWorkerStatus (workerId : string) (status : LabourStatus)
  (s : WorkspaceState) : WorkspaceState :=
  MkState (contractors s)
          (update_first (fun item => String.eqb (Worker.id item) workerId)
                        (Worker.set_status status)
                        (workers s))
          (attendance s) (payments s) (selectedContractorId s).

(** [state.workers.push({ id: crypto.randomUUID(), ...worker })] *)
Definition addWorker (uuid : string) (worker : Worker.draft)
  (s : WorkspaceState) : WorkspaceState :=
  MkState (contractors s)
          (workers s ++ [Worker.make uuid worker])
          (attendance s) (payments s) (selectedContractorId s).

(** One call of a store operation, with the identifier the platform handed
    to it when it asked for one. *)
Inductive Mutation : Type :=
| SetSelectedContractor (id : option string)
| AddAttendance (uuid : string) (input : AttendanceRecord.draft)
| UpdateAttendancePresence (id : string) (presence : LabourStatus)
| AddPayment (uuid : string) (input : Payment.draft)
| UpdateWorkerStatus (workerId : string) (status : LabourStatus)
| AddWorker (uuid : string) (worker : Worker.draft).

Definition apply (m : Mutation) (s : WorkspaceState) : WorkspaceState :=
  match m with
  | SetSelectedContractor id => setSelectedContractor id s
  | AddAttendance uuid input => addAttendance uuid input s
  | UpdateAttendancePresence id presence => updateAttendancePresence id presence s
  | AddPayment uuid input => addPayment uuid input s
  | UpdateWorkerStatus workerId status => updateWorkerStatus workerId status s
  | AddWorker uuid worker => addWorker uuid worker s
  end.

(** The calls of a session, oldest first. *)
Definition run (ms : list Mutation) (s : WorkspaceState) : WorkspaceState :=
  fold_left (fun acc m => apply m acc) ms s.

Definition reachable (sd : SeedDates) (s : WorkspaceState) : Prop :=
  exists ms, s = run ms (initialState sd).




(** ** JavaScript numbers that leave the rationals *)

Inductive JsNumber : Type :=
| Finite (q : Q)
| PosInfinity
| NegInfinity
| NaN.

(** [a > b] on finite numbers *)
Definition Qgtb (a b : Q) : bool := negb (Qle_bool a b).

(** A finite number used as a condition: zero is falsy. *)
Definition truthy (q : Q) : bool := negb (Qeq_bool q 0).

(** Round to the nearest integer, a tie going to the even one. *)
Definition rne (y : Q) : Z :=
  let f := Qfloor y in
  match Qcompare (y - inject_Z f) 0.5 with
  | Lt => f
  | Gt => (f + 1)%Z
  | Eq => if Z.even f then f else (f + 1)%Z
  end.

(** For [x > 0], the exponent [e] with [2 ^ e <= x < 2 ^ (e + 1)]. *)
Definition binade (x : Q) : Z :=
  let k := (Z.log2 (Qnum x) - Z.log2 (Z.pos (Qden x)))%Z in
  if Qle_bool (2 ^ k)%Q x then k else (k - 1)%Z.

(** The binary64 number nearest to [x]: a whole multiple of the unit of the
    binade of [x], which is [2 ^ (e - 52)], the nearest one, a tie going to
    the even multiple. *)
Definition round64 (x : Q) : Q :=
  if Qeq_bool x 0 then 0
  else
    let ulp := (2 ^ (binade (Qabs x) - 52))%Q in
    inject_Z (rne (x / ulp)) * ulp.

(** A positive number is a binary64 number when it is a whole multiple of
    the unit of its binade. *)
Definition representable (m : Q) : Prop :=
  exists M : Z, m == inject_Z M * (2 ^ (binade m - 52))%Q.

(** [a / b]: a zero divisor gives an infinity, or NaN for [0 / 0]. *)
Definition js_div (a b : Q) : JsNumber :=
  if Qeq_bool b 0 then
    if Qeq_bool a 0 then NaN
    else if Qgtb a 0 then PosInfinity else NegInfinity
  else Finite (round64 (a / b)).

(** [x * k] for a finite [k] *)
Definition js_mul (x : JsNumber) (k : Q) : JsNumber :=
  match x with
  | Finite q => Finite (round64 (q * k))
  | PosInfinity =>
      if Qeq_bool k 0 then NaN
      else if Qgtb k 0 then PosInfinity else NegInfinity
  | NegInfinity =>
      if Qeq_bool k 0 then NaN
      else if Qgtb k 0 then NegInfinity else PosInfinity
  | NaN => NaN
  end.

(** [Math.round]: the nearest integer, a tie going up; it is exact on the
    binary64 number it is given. *)
Definition Math_round (x : JsNumber) : JsNumber :=
  match x with
  | Finite q => Finite (inject_Z (Qfloor (q + 0.5)))
  | other => other
  end.

(** The binary64 number nearest to [x] with the exponent range of the
    format: below [2 ^ -1022] the unit stays [2 ^ -1074], and a result of
    magnitude [2 ^ 1024] or more is an infinity. *)
Definition js_number (x : Q) : JsNumber :=
  if Qeq_bool x 0 then Finite 0
  else
    let ulp := (2 ^ (Z.max (binade (Qabs x)) (-1022) - 52))%Q in
    let r := inject_Z (rne (x / ulp)) * ulp in
    if Qle_bool (2 ^ 1024)%Q (Qabs r)
    then if Qgtb x 0 then PosInfinity else NegInfinity
    else Finite (Qred r).

(** [a + b] *)
Definition Number_add (a b : JsNumber) : JsNumber :=
  match a, b with
  | NaN, _ | _, NaN => NaN
  | Finite x, Finite y => js_number (x + y)
  | PosInfinity, NegInfinity | NegInfinity, PosInfinity => NaN
  | PosInfinity, _ | _, PosInfinity => PosInfinity
  | NegInfinity, _ | _, NegInfinity => NegInfinity
  end.

(** [a * b]: zero times an infinity is NaN. *)
Definition Number_mul (a b : JsNumber) : JsNumber :=
  match a, b with
  | NaN, _ | _, NaN => NaN
  | Finite x, Finite y => js_number (x * y)
  | Finite x, PosInfinity | PosInfinity, Finite x =>
      match Qcompare x 0 with
      | Eq => NaN
      | Gt => PosInfinity
      | Lt => NegInfinity
      end
  | Finite x, NegInfinity | NegInfinity, Finite x =>
      match Qcompare x 0 with
      | Eq => NaN
      | Gt => NegInfinity
      | Lt => PosInfinity
      end
  | PosInfinity, PosInfinity | NegInfinity, NegInfinity => PosInfinity
  | PosInfinity, NegInfinity | NegInfinity, PosInfinity => NegInfinity
  end.

(** [a / b] *)
Definition Number_div (a b : JsNumber) : JsNumber :=
  match a, b with
  | NaN, _ | _, NaN => NaN
  | Finite x, Finite y =>
      if Qeq_bool y 0 then
        match Qcompare x 0 with
        | Eq => NaN
        | Gt => PosInfinity
        | Lt => NegInfinity
        end
      else js_number (x / y)
  | Finite _, PosInfinity | Finite _, NegInfinity => Finite 0
  | PosInfinity, Finite y =>
      if Qgtb 0 y then NegInfinity else PosInfinity
  | NegInfinity, Finite y =>
      if Qgtb 0 y then PosInfinity else NegInfinity
  | _, _ => NaN
  end.

(** [a > b]: false as soon as one side is NaN. *)
Definition Number_gt (a b : JsNumber) : bool :=
  match a, b with
  | Finite x, Finite y => Qgtb x y
  | PosInfinity, Finite _ | PosInfinity, NegInfinity => true
  | Finite _, NegInfinity => true
  | _, _ => false
  end.

(** A number used as a condition: zero and NaN are falsy. *)
Definition Number_truthy (a : JsNumber) : bool :=
  match a with
  | Finite x => truthy x
  | NaN => false
  | _ => true
  end.

(** [`${n}`] for an array length *)
Definition string_of_nat (n : nat) : string :=
  NilEmpty.string_of_uint (Nat.to_uint n).

(** ** date-fns *)

(** [differenceInDays] answers NaN when one of its dates is invalid: [None]. *)
Class DateFns : Type := {
  Date : Type;
  parseISO : string -> Date;
  differenceInDays : Date -> Date -> option Z
}.

(** ** src/components/AgentDashboard.tsx *)

Definition dailyPresenceWeight (st : LabourStatus) : Q :=
  match st with
  | present => 1
  | standby => 0.5
  | leave => 0
  | absent => 0
  end.

(** [contractors.find((item) => item.id === selectedContractorId) ?? null];
    no contractor's id is [=== null]. *)
Definition selectedContractor (s : WorkspaceState) : option Contractor.t :=
  match selectedContractorId s with
  | Some sel =>
      find (fun item => String.eqb (Contractor.id item) sel) (contractors s)
  | None => None
  end.

Definition crew (s : WorkspaceState) : list Worker.t :=
  filter (fun worker =>
            match selectedContractor s with
            | Some c => String.eqb (Worker.contractorId worker) (Contractor.id c)
            | None => true
            end)
         (workers s).

Definition latestAttendance (s : WorkspaceState) : list AttendanceRecord.t :=
  filter (fun record =>
            existsb (fun worker =>
                       String.eqb (Worker.id worker)
                                  (AttendanceRecord.workerId record))
                    (crew s))
         (attendance s).

Definition latestPayments (s : WorkspaceState) : list Payment.t :=
  filter (fun payment =>
            existsb (fun worker =>
                       String.eqb (Worker.id worker) (Payment.workerId payment))
                    (crew s))
         (payments s).

Module Totals.
Record t : Type := Make {
  dailySpend : Q;
  totalPayments : Q;
  presentCount : nat;
  offCount : Z;
  crewHealth : JsNumber
}.
End Totals.

(** [crew.reduce((total, worker) => total + worker.dailyRate * weight, 0)],
    with [weight = dailyPresenceWeight[worker.status] ?? 0]: the table has
    an entry for each status, so the [?? 0] never applies. *)
Definition dailySpend_of (members : list Worker.t) : Q :=
  fold_left (fun total worker =>
               total + Worker.dailyRate worker
                       * dailyPresenceWeight (Worker.status worker))
            members 0.

(** [crew.filter((worker) => worker.status === "present").length] *)
Definition presentCount_of (members : list Worker.t) : nat :=
  List.length
    (filter (fun worker => LabourStatus_eqb (Worker.status worker) present)
            members).

(** [selectedContractor?.crewSizeTarget ?? crew.length] *)
Definition targetCrew (s : WorkspaceState) : Q :=
  match selectedContractor s with
  | Some c => Contractor.crewSizeTarget c
  | None => inject_Z (Z.of_nat (List.length (crew s)))
  end.

Definition totals (s : WorkspaceState) : Totals.t :=
  let dailySpend := dailySpend_of (crew s) in
  let totalPayments :=
    fold_left (fun total payment => total + Payment.amount payment)
              (latestPayments s) 0 in
  let presentCount := presentCount_of (crew s) in
  let offCount := (Z.of_nat (List.length (crew s)) - Z.of_nat presentCount)%Z in
  let crewHealth :=
    if Nat.eqb (List.length (crew s)) 0 then Finite 0
    else Math_round
           (js_mul (js_div (inject_Z (Z.of_nat presentCount)) (targetCrew s))
                   100) in
  Totals.Make dailySpend totalPayments presentCount offCount crewHealth.

Definition leaveHeads (s : WorkspaceState) : list Worker.t :=
  filter (fun worker => LabourStatus_eqb (Worker.status worker) leave) (crew s).

Definition shortCrewFlag (n : nat) : string :=
  "Crew short by " ++ string_of_nat n ++ " specialist"
  ++ (if Nat.ltb 1 n then "s" else "") ++ " today.".

Definition budgetExposureFlag : string :=
  "Budget exposure: tighten purchase approvals.".

Definition attendanceFlag : string :=
  "Attendance drops flagged for supervisor follow-up.".

(** [totals.dailySpend] as the code holds it: the [reduce] of [totals]
    with each product and each sum in binary64. *)
Definition dailySpendNumber (members : list Worker.t) : JsNumber :=
  fold_left (fun total worker =>
               Number_add total
                 (Number_mul (Finite (Worker.dailyRate worker))
                    (Finite (dailyPresenceWeight (Worker.status worker)))))
            members (Finite 0).

(** [totals.dailySpend * (selectedContractor ? 6 : 1) ?? 0]: the product is
    a number, so the [?? 0] never applies. *)
Definition budgetBurnRate (s : WorkspaceState) : JsNumber :=
  Number_mul (dailySpendNumber (crew s))
    (Finite (match selectedContractor s with Some _ => 6 | None => 1 end)).

(** The budget block of [keyRisks]: the flags it pushes.  The literal
    [0.4] is the binary64 number nearest to it. *)
Definition budgetRisk `{DateFns} (now : Date) (s : WorkspaceState)
  : list string :=
  match selectedContractor s with
  | Some c =>
      if Number_truthy (budgetBurnRate s) then
        match differenceInDays (parseISO (Contractor.endDate c)) now with
        | Some daysRemaining =>
            if (0 <? daysRemaining)%Z then
              let projectedSpend :=
                Number_mul (budgetBurnRate s)
                  (Number_div (Finite (inject_Z daysRemaining)) (Finite 6)) in
              if Number_gt projectedSpend
                   (Number_mul (Finite (Contractor.budget c))
                               (Finite (round64 0.4)))
              then [budgetExposureFlag] else []
            else []
        | None => []
        end
      else []
  | None => []
  end.

(** [now] is the [new Date()] taken when the memo is computed. *)
Definition keyRisks `{DateFns} (now : Date) (s : WorkspaceState)
  : list string :=
  let riskFlags := [] in
  let riskFlags :=
    if Nat.leb 2 (List.length (leaveHeads s))
    then riskFlags ++ [shortCrewFlag (List.length (leaveHeads s))]
    else riskFlags in
  let riskFlags := riskFlags ++ budgetRisk now s in
  let absentRecords :=
    filter (fun record =>
              LabourStatus_eqb (AttendanceRecord.presence record) absent)
           (latestAttendance s) in
  if Nat.ltb 0 (List.length absentRecords)
  then riskFlags ++ [attendanceFlag]
  else riskFlags.

(** A flag of the short-crew kind, whatever count it names. *)
Definition isShortCrewFlag (flag : string) : bool :=
  String.prefix "Crew short by " flag.

(** ** The specification's formulas, for comparison *)




(** [selectedContractorId] is null or the id of some contractor. *)
Definition selection_valid (s : WorkspaceState) : Prop :=
  match selectedContractorId s with
  | None => True
  | Some sel => exists c, In c (contractors s) /\ Contractor.id c = sel
  end.

(** A call that moves the selection moves it to null or to a contractor
    the store holds at that point. *)
Fixpoint selects_known (ms : list Mutation) (s : WorkspaceState) : Prop :=
  match ms with
  | [] => True
  | m :: r =>
      match m with
      | SetSelectedContractor (Some sel) =>
          exists c, In c (contractors s) /\ Contractor.id c = sel
      | _ => True
      end /\ selects_known r (apply m s)
  end.


(** ** Concrete data for the examples *)

Definition sampleDates : SeedDates :=
  {| monthStart := "2024-05-01"; nextMonthEnd := "2024-06-30";
     monthFifth := "2024-05-05"; nextMonthTwentieth := "2024-06-20";
     todayIso := "2024-05-14"; twoDaysAgo := "2024-05-12";
     weekAgo := "2024-05-07" |}.


(** A session of four calls and the identifiers they were handed. *)
Definition sampleSession : list Mutation :=
  [ AddWorker "3f2b8c1e-9a4d-4e7f-8b21-6c5d0e9f1a23"
      (Worker.Draft "Ravi Kumar" "Helper" 3000 present None "c1");
    UpdateWorkerStatus "w3" present;
    AddAttendance "7d1e4a90-2c3b-4f58-9e6a-0b1c2d3e4f56"
      (AttendanceRecord.Draft "w4" "2024-05-14" 6 standby None "Site");
    AddPayment "c0ffee00-1234-4abc-8def-001122334455"
      (Payment.Draft "w1" 5000 "2024-05-14" advance None) ].

(** Dates as day numbers of 2024, for the handful of days the examples
    use; whole days, so the difference is a subtraction. *)
Definition sampleCalendar : DateFns :=
  {| Date := Z;
     parseISO := fun iso =>
       if String.eqb iso "2024-05-14" then 135%Z
       else if String.eqb iso "2024-06-13" then 165%Z
       else if String.eqb iso "2024-06-20" then 172%Z
       else if String.eqb iso "2024-06-30" then 182%Z
       else 0%Z;
     differenceInDays := fun left right => Some (left - right)%Z |}.

(** 14 May 2024 *)
Definition sampleNow : @Date sampleCalendar := 135%Z.

(** One contractor ending on 13 June 2024 and a crew of one. *)
Definition oneCrew (budget : Q) (dailyRate : Q) (status : LabourStatus)
  : WorkspaceState :=
  MkState
    [ Contractor.Make "c9" "Harbour Plumbing" "Harbour Plumbing" "Riser works"
        budget "2024-05-01" "2024-06-13" 4 None ]
    [ Worker.Make "w9" "Noor Ali" "Fitter" dailyRate status None "c9" ]
    [] [] (Some "c9").

(** The crew of the specification's payroll scenario. *)
Definition scenarioCrew : list Worker.t :=
  [ Worker.Make "w1" "A" "T" 4200 present None "c1";
    Worker.Make "w2" "B" "T" 4600 present None "c1";
    Worker.Make "w3" "C" "T" 5800 leave None "c1";
    Worker.Make "w4" "D" "T" 3600 standby None "c1" ].

(** A contractor with the given target and a crew of [n] present workers. *)
Definition presentCrew (target : Q) (n : nat) : WorkspaceState :=
  MkState
    [ Contractor.Make "c9" "Harbour Plumbing" "Harbour Plumbing" "Riser works"
        50000 "2024-05-01" "2024-06-13" target None ]
    (map (fun i => Worker.Make (string_of_nat i) "Crew" "Fitter" 4000 present
                               None "c9")
         (seq 1 n))
    [] [] (Some "c9").

(** A session that clears the selection and adds [nPresent] workers who
    are present and [nLeave] workers who are on leave. *)
Definition hireSession (nPresent nLeave : nat) : list Mutation :=
  SetSelectedContractor None
  :: map (fun i => AddWorker ("hire-" ++ string_of_nat i)
                     (Worker.Draft "Crew" "Fitter" 4000 present None "c1"))
         (seq 1 nPresent)
  ++ map (fun i => AddWorker ("hire-" ++ string_of_nat i)
                     (Worker.Draft "Crew" "Fitter" 4000 leave None "c2"))
         (seq (S nPresent) nLeave).

(** ** src/components/AgentDashboard.tsx: forms, suggestions and handlers *)

Module AttendanceDraft.
Record t : Type := Make {
  workerId : string;
  hoursWorked : Q;
  presence : LabourStatus;
  remarks : option string;
  site : string
}.
End AttendanceDraft.

Module PaymentDraft.
Record t : Type := Make {
  workerId : string;
  amount : Q;
  category : PaymentCategory;
  note : option string
}.
End PaymentDraft.

Definition defaultAttendanceDraft : AttendanceDraft.t :=
  AttendanceDraft.Make "" 8 present (Some "") "".

Definition defaultPaymentDraft : PaymentDraft.t :=
  PaymentDraft.Make "" 5000 advance (Some "").

Module Suggestion.
Record t : Type := Make {
  title : string;
  detail : string;
  category : string
}.
End Suggestion.

Definition redeploySuggestion (n : nat) : Suggestion.t :=
  Suggestion.Make "Redeploy standby crew"
    ("Assign " ++ string_of_nat n ++ " standby member"
     ++ (if Nat.ltb 1 n then "s" else "") ++ " to BlueWave shaft prep.")
    "Crew".

Definition deductionSuggestion : Suggestion.t :=
  Suggestion.Make "Review deductions"
    "Multiple deductions this week - align with contractor rep." "Finance".

Definition briefSuggestion : Suggestion.t :=
  Suggestion.Make "Daily AI brief"
    "Use quick brief below to align contractor, labour captain, and supplier."
    "AI Agent".

Definition standbyCrew (s : WorkspaceState) : list Worker.t :=
  filter (fun worker => LabourStatus_eqb (Worker.status worker) standby)
         (crew s).

Definition deductionCount (s : WorkspaceState) : nat :=
  List.length
    (filter (fun payment =>
               PaymentCategory_eqb (Payment.category payment) deduction)
            (latestPayments s)).

(** [if (standby.length)]: a length of zero is falsy. *)
Definition actionSuggestions (s : WorkspaceState) : list Suggestion.t :=
  let items := [] in
  let items :=
    if negb (Nat.eqb (List.length (standbyCrew s)) 0)
    then items ++ [redeploySuggestion (List.length (standbyCrew s))]
    else items in
  let items :=
    if Nat.ltb 1 (deductionCount s)
    then items ++ [deductionSuggestion]
    else items in
  items ++ [briefSuggestion].

(** [if (!attendanceDraft.workerId) return null]: the empty string is
    falsy. *)
Definition selectedWorker (draft : AttendanceDraft.t) (s : WorkspaceState)
  : option Worker.t :=
  if String.eqb (AttendanceDraft.workerId draft) "" then None
  else find (fun worker =>
               String.eqb (Worker.id worker) (AttendanceDraft.workerId draft))
            (crew s).

(** [handleAddAttendance].  [trim] is [String.prototype.trim], [today] is
    [format(new Date(), "yyyy-MM-dd")] and [uuid] the identifier
    [addAttendance] is handed; the answer is the store and the draft the
    handler leaves behind. *)
Definition handleAddAttendance (trim : string -> string) (today uuid : string)
  (attendanceDraft : AttendanceDraft.t) (s : WorkspaceState)
  : WorkspaceState * AttendanceDraft.t :=
  if String.eqb (AttendanceDraft.workerId attendanceDraft) "" then
    (s, attendanceDraft)
  else
    let record :=
      AttendanceRecord.Draft
        (AttendanceDraft.workerId attendanceDraft)
        today
        (AttendanceDraft.hoursWorked attendanceDraft)
        (AttendanceDraft.presence attendanceDraft)
        (match AttendanceDraft.remarks attendanceDraft with
         | Some r => if String.eqb (trim r) "" then None else Some (trim r)
         | None => None
         end)
        (if String.eqb (AttendanceDraft.site attendanceDraft) "" then
           match selectedContractor s with
           | Some c => Contractor.scope c
           | None => "Site"
           end
         else AttendanceDraft.site attendanceDraft) in
    (updateWorkerStatus (AttendanceRecord.d_workerId record)
                        (AttendanceRecord.d_presence record)
                        (addAttendance uuid record s),
     AttendanceDraft.Make (AttendanceRecord.d_workerId record) 8 present
                          (Some "") "").

(** [handleAddPayment]: [!paymentDraft.amount] holds for zero. *)
Definition handleAddPayment (today uuid : string)
  (paymentDraft : PaymentDraft.t) (s : WorkspaceState)
  : WorkspaceState * PaymentDraft.t :=
  if String.eqb (PaymentDraft.workerId paymentDraft) ""
     || negb (truthy (PaymentDraft.amount paymentDraft)) then
    (s, paymentDraft)
  else
    (addPayment uuid
       (Payment.Draft
          (PaymentDraft.workerId paymentDraft)
          (PaymentDraft.amount paymentDraft)
          today
          (PaymentDraft.category paymentDraft)
          (match PaymentDraft.note paymentDraft with
           | Some n => if String.eqb n "" then None else Some n
           | None => None
           end))
       s,
     PaymentDraft.Make (PaymentDraft.workerId paymentDraft) 5000 advance
                       (Some "")).

(** The "Fill Quick Log" button: [crew[0]], if there is one, becomes the
    worker of the draft. *)
Definition fillQuickLog (s : WorkspaceState) (prev : AttendanceDraft.t)
  : AttendanceDraft.t :=
  match crew s with
  | [] => prev
  | firstCrew :: _ =>
      AttendanceDraft.Make (Worker.id firstCrew)
        (AttendanceDraft.hoursWorked prev) (AttendanceDraft.presence prev)
        (AttendanceDraft.remarks prev) (AttendanceDraft.site prev)
  end.

(** The rows of "Recent Attendance": [latestAttendance.slice(0, 6)]. *)
Definition recentAttendance (s : WorkspaceState) : list AttendanceRecord.t :=
  firstn 6 (latestAttendance s).

(** [crew.find((crewMember) => crewMember.id === record.workerId) ?? null] *)
Definition rowWorker (s : WorkspaceState) (record : AttendanceRecord.t)
  : option Worker.t :=
  find (fun crewMember =>
          String.eqb (Worker.id crewMember) (AttendanceRecord.workerId record))
       (crew s).

(** [worker?.name ?? "Worker"] *)
Definition rowName (s : WorkspaceState) (record : AttendanceRecord.t)
  : string :=
  match rowWorker s record with
  | Some worker => Worker.name worker
  | None => "Worker"
  end.

(** The "Toggle Presence" button of a row. *)
Definition togglePresence (record : AttendanceRecord.t) (s : WorkspaceState)
  : WorkspaceState :=
  updateAttendancePresence
    (AttendanceRecord.id record)
    (if LabourStatus_eqb (AttendanceRecord.presence record) present
     then absent else present)
    s.

(** The record a row shows once its button was pressed. *)
Definition toggled (r : AttendanceRecord.t) : AttendanceRecord.t :=
  AttendanceRecord.set_presence
    (if LabourStatus_eqb (AttendanceRecord.presence r) present
     then absent else present) r.

(** ** What a session adds, collection by collection *)

Fixpoint addedWorkers (ms : list Mutation) : list Worker.t :=
  match ms with
  | [] => []
  | AddWorker uuid worker :: r => Worker.make uuid worker :: addedWorkers r
  | _ :: r => addedWorkers r
  end.

Fixpoint addedAttendance (ms : list Mutation) : list AttendanceRecord.t :=
  match ms with
  | [] => []
  | AddAttendance uuid input :: r =>
      AttendanceRecord.make uuid input :: addedAttendance r
  | _ :: r => addedAttendance r
  end.

Fixpoint addedPayments (ms : list Mutation) : list Payment.t :=
  match ms with
  | [] => []
  | AddPayment uuid input :: r => Payment.make uuid input :: addedPayments r
  | _ :: r => addedPayments r
  end.

(** The selection a session ends with, starting from [start]. *)
Fixpoint lastSelection (ms : list Mutation) (start : option string)
  : option string :=
  match ms with
  | [] => start
  | SetSelectedContractor id :: r => lastSelection r id
  | _ :: r => lastSelection r start
  end.

(** A worker without the one field the store rewrites. *)
Definition workerCore (w : Worker.t) : Worker.t :=
  Worker.set_status present w.

(** An attendance record without the one field the store rewrites. *)
Definition attendanceCore (r : AttendanceRecord.t) : AttendanceRecord.t :=
  AttendanceRecord.set_presence present r.



(** A form filled in for Lily Chen, absent, no site given. *)
Definition sampleAttendanceDraft : AttendanceDraft.t :=
  AttendanceDraft.Make "w4" 0 absent (Some "No show") "".

(** A form filled in for a deduction, the note left empty. *)
Definition samplePaymentDraft : PaymentDraft.t :=
  PaymentDraft.Make "w1" 750 deduction (Some "").

(** Remarks that carry no white space at either end are their own trim. *)
Definition sampleTrim (remarks : string) : string := remarks.

(** * Properties of the store *)

Section UpdateFirst.
Context {A : Type} (p : A -> bool) (f : A -> A).

Lemma update_first_no_match (l : list A) :
  (forall x, In x l -> p x = false) -> update_first p f l = l.
Proof.
  induction l as [|x r IH]; intros Hno; simpl; [reflexivity|].
  rewrite (Hno x (or_introl eq_refl)).
  f_equal. apply IH. intros y Hy. apply Hno. now right.
Qed.

Lemma update_first_map {B : Type} (g : A -> B) (l : list A) :
  (forall x, g (f x) = g x) -> map g (update_first p f l) = map g l.
Proof.
  intros Hg. induction l as [|x r IH]; simpl; [reflexivity|].
  destruct (p x); simpl; [now rewrite Hg | now rewrite IH].
Qed.
End UpdateFirst.

Lemma run_cons (m : Mutation) (ms : list Mutation) (s : WorkspaceState) :
  run (m :: ms) s = run ms (apply m s).
Proof. reflexivity. Qed.

(** No operation of the store writes to [contractors]. *)
Lemma contractors_apply (m : Mutation) (s : WorkspaceState) :
  contractors (apply m s) = contractors s.
Proof. destruct m; reflexivity. Qed.

Lemma contractors_run (ms : list Mutation) (s : WorkspaceState) :
  contractors (run ms s) = contractors s.
Proof.
  revert s. induction ms as [|m r IH]; intros s; [reflexivity|].
  rewrite run_cons, IH. apply contractors_apply.
Qed.











(** C6. Two [addAttendance] calls leave the second record first and the
    first record second, each with the identifier it was handed and the
    fields of its input, ahead of the records already there, in their old
    order; [addPayment] prepends in the same way; two [addWorker] calls
    leave the second worker last and the first one just before it, behind
    the workers already there, in their old order. *)
Theorem insertion_ordering (s : WorkspaceState)
  (u1 u2 : string) (r1 r2 : AttendanceRecord.draft)
  (p1 p2 : Payment.draft) (w1 w2 : Worker.draft) :
  let stored (u : string) (r : AttendanceRecord.draft) :=
    AttendanceRecord.Make u (AttendanceRecord.d_workerId r)
      (AttendanceRecord.d_date r) (AttendanceRecord.d_hoursWorked r)
      (AttendanceRecord.d_presence r) (AttendanceRecord.d_remarks r)
      (AttendanceRecord.d_site r) in
  let paid (u : string) (p : Payment.draft) :=
    Payment.Make u (Payment.d_workerId p) (Payment.d_amount p)
      (Payment.d_date p) (Payment.d_category p) (Payment.d_note p) in
  let hired (u : string) (w : Worker.draft) :=
    Worker.Make u (Worker.d_name w) (Worker.d_trade w) (Worker.d_dailyRate w)
      (Worker.d_status w) (Worker.d_phone w) (Worker.d_contractorId w) in
  let sa := addAttendance u2 r2 (addAttendance u1 r1 s) in
  let sp := addPayment u2 p2 (addPayment u1 p1 s) in
  let sw := addWorker u2 w2 (addWorker u1 w1 s) in
  hd_error (attendance sa) = Some (stored u2 r2)
  /\ attendance sa = stored u2 r2 :: stored u1 r1 :: attendance s
  /\ hd_error (payments sp) = Some (paid u2 p2)
  /\ payments sp = paid u2 p2 :: paid u1 p1 :: payments s
  /\ (forall d, last (workers sw) d = hired u2 w2)
  /\ workers sw = workers s ++ [hired u1 w1; hired u2 w2].
Proof.
  cbv zeta. cbn [addAttendance addPayment addWorker attendance payments
                 workers hd_error].
  repeat split.
  - intros d. rewrite <- app_assoc. cbn [app].
    induction (workers s) as [|x r IH]; [reflexivity|].
    cbn [app last]. destruct (r ++ _) eqn:E; [|exact IH].
    destruct r; discriminate.
  - now rewrite <- app_assoc.
Qed.

(** C7. An identifier that no worker carries makes [updateWorkerStatus]
    return the state it was given, and one that no attendance record
    carries does the same for [updateAttendancePresence]; both are total
    functions, so there is no error to signal. *)
Theorem missing_reference_noop (s : WorkspaceState) (id : string)
  (status : LabourStatus) :
  ((forall w, In w (workers s) -> Worker.id w <> id) ->
   updateWorkerStatus id status s = s)
  /\ ((forall r, In r (attendance s) -> AttendanceRecord.id r <> id) ->
      updateAttendancePresence id status s = s).
Proof.
  split; intros Hno; destruct s as [cs ws ats ps sel]; simpl in *.
  - unfold updateWorkerStatus; simpl. f_equal.
    apply update_first_no_match. intros w Hw.
    apply String.eqb_neq. now apply Hno.
  - unfold updateAttendancePresence; simpl. f_equal.
    apply update_first_no_match. intros r Hr.
    apply String.eqb_neq. now apply Hno.
Qed.

Lemma missing_reference_noop_witness :
  updateWorkerStatus "nonexistent-id" present (initialState sampleDates)
  = initialState sampleDates
  /\ updateAttendancePresence "nonexistent-id" absent
       (initialState sampleDates)
     = initialState sampleDates.
Proof.
  split.
  - apply (proj1 (missing_reference_noop (initialState sampleDates)
                    "nonexistent-id" present)).
    simpl. intros w Hw. intuition (subst; discriminate).
  - apply (proj2 (missing_reference_noop (initialState sampleDates)
                    "nonexistent-id" absent)).
    simpl. intros r Hr. intuition (subst; discriminate).
Defined.

(** C5, as the claim states it, fails: the store keeps whatever string it
    is handed. *)
Lemma selection_invariant_counterexample :
  reachable sampleDates
    (run [SetSelectedContractor (Some "unknown-id")] (initialState sampleDates))
  /\ ~ selection_valid
        (run [SetSelectedContractor (Some "unknown-id")]
             (initialState sampleDates)).
Proof.
  split.
  - now exists [SetSelectedContractor (Some "unknown-id")].
  - simpl. intros [c [Hin Hid]].
    destruct Hin as [<-|[<-|[]]]; discriminate.
Qed.

Lemma selection_valid_run (ms : list Mutation) (s : WorkspaceState) :
  selection_valid s -> selects_known ms s -> selection_valid (run ms s).
Proof.
  revert s. induction ms as [|m r IH]; intros s Hs Hk; [exact Hs|].
  destruct Hk as [Hm Hr]. rewrite run_cons. apply IH; [|exact Hr].
  destruct m as [[sel|]|u d|i p|u d|i st|u d]; try exact Hs; try exact I.
  exact Hm.
Qed.

(** C5, amended. The contractors never change, and when every
    [setSelectedContractor] call of a session passes null or the id of a
    contractor, the selection is null or the id of a contractor in every
    state the session reaches from the seed. *)
Theorem selection_invariant (sd : SeedDates) (ms : list Mutation) :
  selects_known ms (initialState sd) ->
  contractors (run ms (initialState sd)) = initialContractors sd
  /\ selection_valid (run ms (initialState sd)).
Proof.
  intros Hk. split; [apply contractors_run|].
  apply selection_valid_run; [|exact Hk].
  simpl. eexists. split; [left; reflexivity | reflexivity].
Qed.

Lemma selection_invariant_witness :
  selects_known
    [SetSelectedContractor (Some "c2"); SetSelectedContractor None;
     UpdateWorkerStatus "w1" leave]
    (initialState sampleDates)
  /\ selection_valid
       (run [SetSelectedContractor (Some "c2"); SetSelectedContractor None;
             UpdateWorkerStatus "w1" leave]
            (initialState sampleDates)).
Proof.
  assert (Hk : selects_known
                 [SetSelectedContractor (Some "c2");
                  SetSelectedContractor None;
                  UpdateWorkerStatus "w1" leave]
                 (initialState sampleDates)).
  { simpl. repeat split.
    eexists. split; [right; left; reflexivity | reflexivity]. }
  split; [exact Hk|].
  exact (proj2 (selection_invariant sampleDates _ Hk)).
Defined.

(** * Binary64 rounding *)

Lemma rne_floor_or_next (y : Q) :
  rne y = Qfloor y \/ (rne y = (Qfloor y + 1)%Z /\ 0.5 <= y - inject_Z (Qfloor y)).
Proof.
  unfold rne. destruct (Qcompare _ _) eqn:E.
  - apply Qeq_alt in E. destruct (Z.even _); [now left|].
    right. split; [reflexivity|]. rewrite E. apply Qle_refl.
  - now left.
  - apply Qgt_alt in E. right. split; [reflexivity|]. now apply Qlt_le_weak.
Qed.

Lemma rne_le_int (y : Q) (M : Z) : y <= inject_Z M -> (rne y <= M)%Z.
Proof.
  intros Hy. pose proof (Qfloor_le y) as Hf.
  destruct (rne_floor_or_next y) as [->|[-> Hhalf]].
  - rewrite Zle_Qle. lra.
  - assert (H : inject_Z (Qfloor y) < inject_Z M) by lra.
    rewrite <- Zlt_Qlt in H. lia.
Qed.

Lemma rne_ge_int (y : Q) (M : Z) : inject_Z M <= y -> (M <= rne y)%Z.
Proof.
  intros Hy. apply Qfloor_resp_le in Hy. rewrite Qfloor_Z in Hy.
  destruct (rne_floor_or_next y) as [->|[-> _]]; lia.
Qed.

Lemma two_power_pos (e : Z) : 0 < 2 ^ e.
Proof. apply Qpower_0_lt. reflexivity. Qed.

Lemma two_power_Z (n : Z) : (0 <= n)%Z -> inject_Z (2 ^ n) == 2 ^ n.
Proof. intros Hn. now rewrite Zpower_Qpower. Qed.

Lemma binade_spec (x : Q) :
  0 < x -> 2 ^ binade x <= x /\ x < 2 ^ (binade x + 1).
Proof.
  intros Hx. unfold binade.
  set (a := Z.log2 (Qnum x)). set (b := Z.log2 (Z.pos (Qden x))).
  assert (Hn : (0 < Qnum x)%Z).
  { destruct x as [n d]. unfold Qlt in Hx. simpl in *. lia. }
  assert (Ha : (0 <= a)%Z) by apply Z.log2_nonneg.
  assert (Hb : (0 <= b)%Z) by apply Z.log2_nonneg.
  destruct (Z.log2_spec (Qnum x) Hn) as [Ha1 Ha2]. fold a in Ha1, Ha2.
  destruct (Z.log2_spec (Z.pos (Qden x)) eq_refl) as [Hb1 Hb2].
  fold b in Hb1, Hb2.
  set (N := inject_Z (Qnum x)). set (D := inject_Z (Z.pos (Qden x))).
  assert (HN1 : 2 ^ a <= N).
  { rewrite <- two_power_Z by exact Ha. unfold N. now rewrite <- Zle_Qle. }
  assert (HN2 : N < 2 ^ (a + 1)).
  { rewrite <- two_power_Z by lia. unfold N. rewrite <- Zlt_Qlt.
    now rewrite Z.add_1_r. }
  assert (HD1 : 2 ^ b <= D).
  { rewrite <- two_power_Z by exact Hb. unfold D. now rewrite <- Zle_Qle. }
  assert (HD2 : D < 2 ^ (b + 1)).
  { rewrite <- two_power_Z by lia. unfold D. rewrite <- Zlt_Qlt.
    now rewrite Z.add_1_r. }
  assert (HD0 : 0 < D).
  { pose proof (two_power_pos b). lra. }
  assert (Ex : x == N / D).
  { destruct x as [n d]. unfold N, D. simpl. apply Qmake_Qdiv. }
  assert (Hup : x < 2 ^ (a - b + 1)).
  { rewrite Ex. apply Qlt_shift_div_r; [exact HD0|].
    replace (a - b + 1)%Z with ((a + 1) - b)%Z by lia.
    rewrite Qpower_minus by discriminate.
    pose proof (two_power_pos b) as Pb. pose proof (two_power_pos (a + 1)) as Pa.
    apply Qlt_le_trans with (2 ^ (a + 1)); [exact HN2|].
    setoid_replace (2 ^ (a + 1)) with (2 ^ (a + 1) / 2 ^ b * 2 ^ b) at 1
      by (field; lra).
    apply Qmult_le_l; [|exact HD1].
    apply Qlt_shift_div_l; [exact Pb | lra]. }
  assert (Hlo : 2 ^ (a - b - 1) <= x).
  { rewrite Ex. apply Qle_shift_div_l; [exact HD0|].
    replace (a - b - 1)%Z with (a - (b + 1))%Z by lia.
    rewrite Qpower_minus by discriminate.
    pose proof (two_power_pos (b + 1)) as Pb. pose proof (two_power_pos a) as Pa.
    apply Qle_trans with (2 ^ a); [|exact HN1].
    setoid_replace (2 ^ a) with (2 ^ a / 2 ^ (b + 1) * 2 ^ (b + 1)) at 2
      by (field; lra).
    apply Qmult_le_l; [|lra].
    apply Qlt_shift_div_l; [exact Pb | lra]. }
  destruct (Qle_bool (2 ^ (a - b)) x) eqn:E.
  - apply Qle_bool_iff in E. split; assumption.
  - split; [exact Hlo|].
    replace (a - b - 1 + 1)%Z with (a - b)%Z by lia.
    apply Qnot_le_lt. intros H. apply Qle_bool_iff in H. congruence.
Qed.

Lemma binade_le (x y : Q) : 0 < x -> x <= y -> (binade x <= binade y)%Z.
Proof.
  intros Hx Hxy.
  destruct (binade_spec x Hx) as [Hx1 _].
  destruct (binade_spec y) as [_ Hy2]; [lra|].
  assert (H : 2 ^ binade x < 2 ^ (binade y + 1)) by lra.
  apply Qpower_lt_compat_l_inv in H; [lia | reflexivity].
Qed.

Lemma Qabs_of_pos (x : Q) : 0 < x -> Qabs x = x.
Proof.
  destruct x as [n d]. unfold Qlt, Qabs. simpl. intros H.
  f_equal. lia.
Qed.

Lemma round64_pos (x : Q) :
  0 < x -> round64 x = inject_Z (rne (x / 2 ^ (binade x - 52))) * 2 ^ (binade x - 52).
Proof.
  intros Hx. unfold round64. rewrite (Qabs_of_pos x Hx).
  destruct (Qeq_bool x 0) eqn:E; [|reflexivity].
  apply Qeq_bool_iff in E. lra.
Qed.

Lemma scaled_bounds (x : Q) :
  0 < x ->
  inject_Z (2 ^ 52) <= x / 2 ^ (binade x - 52)
  /\ x / 2 ^ (binade x - 52) <= inject_Z (2 ^ 53).
Proof.
  intros Hx. destruct (binade_spec x Hx) as [H1 H2].
  pose proof (two_power_pos (binade x - 52)) as Pu.
  rewrite !two_power_Z by lia. split.
  - apply Qle_shift_div_l; [exact Pu|].
    rewrite <- Qpower_plus by discriminate.
    now replace (52 + (binade x - 52))%Z with (binade x) by lia.
  - apply Qle_shift_div_r; [exact Pu|].
    rewrite <- Qpower_plus by discriminate.
    replace (53 + (binade x - 52))%Z with (binade x + 1)%Z by lia.
    now apply Qlt_le_weak.
Qed.

Lemma round64_le_representable (x m : Q) :
  0 < x -> x <= m -> representable m -> round64 x <= m.
Proof.
  intros Hx Hxm [M HM]. rewrite (round64_pos x Hx).
  pose proof (binade_le x m Hx Hxm) as He.
  pose proof (two_power_pos (binade x - 52)) as Pu.
  destruct (Z.eq_dec (binade x) (binade m)) as [E|E].
  - rewrite <- E in HM. rewrite HM.
    apply Qmult_le_compat_r; [|now apply Qlt_le_weak].
    rewrite <- Zle_Qle. apply rne_le_int.
    apply Qle_shift_div_r; [exact Pu|]. now rewrite <- HM.
  - destruct (scaled_bounds x Hx) as [_ Hs].
    apply rne_le_int in Hs. rewrite Zle_Qle in Hs.
    rewrite two_power_Z in Hs by lia.
    destruct (binade_spec m) as [Hm _]; [lra|].
    apply Qle_trans with (2 ^ binade m); [|exact Hm].
    apply Qle_trans with (2 ^ 53 * 2 ^ (binade x - 52)).
    + apply Qmult_le_compat_r; [exact Hs | now apply Qlt_le_weak].
    + rewrite <- Qpower_plus by discriminate.
      apply Qpower_le_compat_l; [lia | discriminate].
Qed.

Lemma round64_ge_representable (x m : Q) :
  0 < m -> m <= x -> representable m -> m <= round64 x.
Proof.
  intros Hm Hmx [M HM].
  assert (Hx : 0 < x) by lra.
  rewrite (round64_pos x Hx).
  pose proof (binade_le m x Hm Hmx) as He.
  pose proof (two_power_pos (binade x - 52)) as Pu.
  destruct (Z.eq_dec (binade m) (binade x)) as [E|E].
  - rewrite E in HM. rewrite HM at 1.
    apply Qmult_le_compat_r; [|now apply Qlt_le_weak].
    rewrite <- Zle_Qle. apply rne_ge_int.
    apply Qle_shift_div_l; [exact Pu|]. now rewrite <- HM.
  - destruct (scaled_bounds x Hx) as [Hs _].
    apply rne_ge_int in Hs. rewrite Zle_Qle in Hs.
    rewrite two_power_Z in Hs by lia.
    destruct (binade_spec m Hm) as [_ Hm2].
    apply Qle_trans with (2 ^ (binade m + 1)); [now apply Qlt_le_weak|].
    apply Qle_trans with (2 ^ 52 * 2 ^ (binade x - 52)).
    + rewrite <- Qpower_plus by discriminate.
      apply Qpower_le_compat_l; [lia | discriminate].
    + apply Qmult_le_compat_r; [exact Hs | now apply Qlt_le_weak].
Qed.

Lemma round64_zero (x : Q) : x == 0 -> round64 x = 0.
Proof.
  intros Hx. unfold round64. apply Qeq_bool_iff in Hx. now rewrite Hx.
Qed.

Lemma round64_nonneg (x : Q) : 0 <= x -> 0 <= round64 x.
Proof.
  intros Hx. destruct (Qeq_bool x 0) eqn:E.
  - apply Qeq_bool_iff in E. rewrite (round64_zero x E). apply Qle_refl.
  - assert (Hpos : 0 < x).
    { apply Qle_lt_or_eq in Hx. destruct Hx as [H|H]; [exact H|].
      symmetry in H. apply Qeq_bool_iff in H. congruence. }
    rewrite (round64_pos x Hpos).
    apply Qmult_le_0_compat; [|apply Qlt_le_weak, two_power_pos].
    change 0 with (inject_Z 0). rewrite <- Zle_Qle. apply rne_ge_int.
    apply Qle_shift_div_l; [apply two_power_pos|].
    change (inject_Z 0) with 0. rewrite Qmult_0_l. exact Hx.
Qed.

Lemma round64_exact (x m : Q) :
  0 < m -> representable m -> x == m -> round64 x == m.
Proof.
  intros Hm Hr E. apply Qle_antisym.
  - apply round64_le_representable; [lra | lra | exact Hr].
  - apply round64_ge_representable; [exact Hm | lra | exact Hr].
Qed.

Lemma round64_between (x m : Q) :
  0 <= x -> x <= m -> 0 < m -> representable m ->
  0 <= round64 x /\ round64 x <= m.
Proof.
  intros H0 Hm Hpos Hr. split; [now apply round64_nonneg|].
  destruct (Qeq_bool x 0) eqn:E.
  - apply Qeq_bool_iff in E. rewrite (round64_zero x E). now apply Qlt_le_weak.
  - apply round64_le_representable; [|exact Hm|exact Hr].
    apply Qle_lt_or_eq in H0. destruct H0 as [H|H]; [exact H|].
    symmetry in H. apply Qeq_bool_iff in H. congruence.
Qed.

Ltac binary64_number M := exists M; vm_compute; reflexivity.

Lemma representable_half : representable 0.5.
Proof. binary64_number (2 ^ 52)%Z. Qed.

Lemma representable_1 : representable 1.
Proof. binary64_number (2 ^ 52)%Z. Qed.

Lemma representable_50 : representable 50.
Proof. binary64_number (25 * 2 ^ 48)%Z. Qed.

Lemma representable_100 : representable 100.
Proof. binary64_number (25 * 2 ^ 48)%Z. Qed.

(** * Properties of the dashboard derivations *)

Lemma Qgtb_lt (a b : Q) : Qgtb a b = true <-> b < a.
Proof.
  unfold Qgtb. rewrite negb_true_iff. split.
  - intros E. apply Qnot_le_lt. intros Hle.
    apply Qle_bool_iff in Hle. congruence.
  - intros Hlt. destruct (Qle_bool a b) eqn:E; [|reflexivity].
    apply Qle_bool_iff in E. exfalso. exact (Qlt_not_le _ _ Hlt E).
Qed.

Lemma truthy_nonzero (q : Q) : truthy q = true <-> ~ q == 0.
Proof.
  unfold truthy. rewrite negb_true_iff. split.
  - intros E Hq. apply Qeq_bool_iff in Hq. congruence.
  - intros Hq. destruct (Qeq_bool q 0) eqn:E; [|reflexivity].
    apply Qeq_bool_iff in E. contradiction.
Qed.

Lemma js_div_nonzero (a b : Q) :
  ~ b == 0 -> js_div a b = Finite (round64 (a / b)).
Proof.
  intros Hb. unfold js_div. destruct (Qeq_bool b 0) eqn:E; [|reflexivity].
  apply Qeq_bool_iff in E. contradiction.
Qed.

(** [Math.round] answers the integer [z] with [z - 1/2 <= x < z + 1/2]. *)
Lemma Math_round_nearest (x : Q) :
  exists z, Math_round (Finite x) = Finite (inject_Z z)
            /\ inject_Z z - 0.5 <= x /\ x < inject_Z z + 0.5.
Proof.
  exists (Qfloor (x + 0.5)). split; [reflexivity|].
  pose proof (Qfloor_le (x + 0.5)) as Hlo.
  pose proof (Qlt_floor (x + 0.5)) as Hhi.
  rewrite inject_Z_plus in Hhi. change (inject_Z 1) with 1 in Hhi.
  split; lra.
Qed.

Lemma filter_all {A : Type} (l : list A) : filter (fun _ => true) l = l.
Proof. induction l as [|x r IH]; simpl; [reflexivity | now rewrite IH]. Qed.


(** C2, as the claim states it, fails: an id that is not null and matches
    no contractor selects every worker, not the workers that carry it. *)
Lemma crew_resolution_counterexample :
  let s := run [SetSelectedContractor (Some "unknown-id")]
               (initialState sampleDates) in
  selectedContractorId s = Some "unknown-id"
  /\ crew s = workers s
  /\ filter (fun w => String.eqb (Worker.contractorId w) "unknown-id")
            (workers s) = []
  /\ crew s
     <> filter (fun w => String.eqb (Worker.contractorId w) "unknown-id")
               (workers s).
Proof. simpl. repeat split. discriminate. Qed.

(** C2, amended. When the selected id is the id of some contractor the
    crew is exactly the workers whose [contractorId] is the selected id;
    when it is null, or the id of no contractor, the crew is all workers. *)
Theorem crew_resolution (s : WorkspaceState) :
  (forall sel,
      selectedContractorId s = Some sel ->
      (exists c, In c (contractors s) /\ Contractor.id c = sel) ->
      crew s
      = filter (fun w => String.eqb (Worker.contractorId w) sel) (workers s))
  /\ (forall sel,
        selectedContractorId s = Some sel ->
        (forall c, In c (contractors s) -> Contractor.id c <> sel) ->
        crew s = workers s)
  /\ (selectedContractorId s = None -> crew s = workers s).
Proof.
  unfold crew, selectedContractor. split; [|split].
  - intros sel -> [c [Hin Hid]].
    destruct (find _ (contractors s)) as [c'|] eqn:E.
    + apply find_some in E. destruct E as [_ E].
      apply String.eqb_eq in E. now rewrite E.
    + apply (find_none _ _ E) in Hin.
      apply String.eqb_neq in Hin. contradiction.
  - intros sel -> Hno.
    destruct (find _ (contractors s)) as [c'|] eqn:E.
    + apply find_some in E. destruct E as [Hin E].
      apply String.eqb_eq in E. now apply Hno in Hin.
    + apply filter_all.
  - intros ->. apply filter_all.
Qed.

Lemma crew_resolution_witness :
  crew (initialState sampleDates)
  = filter (fun w => String.eqb (Worker.contractorId w) "c1")
           (workers (initialState sampleDates))
  /\ crew (setSelectedContractor (Some "") (initialState sampleDates))
     = workers (initialState sampleDates)
  /\ crew (setSelectedContractor None (initialState sampleDates))
     = workers (initialState sampleDates).
Proof.
  split; [|split].
  - apply (proj1 (crew_resolution (initialState sampleDates)) "c1");
      [reflexivity|].
    eexists. split; [left; reflexivity | reflexivity].
  - apply (proj1 (proj2 (crew_resolution
                           (setSelectedContractor (Some "")
                              (initialState sampleDates)))) "");
      [reflexivity|].
    simpl. intros c Hc. intuition (subst; discriminate).
  - apply (proj2 (proj2 (crew_resolution
                           (setSelectedContractor None
                              (initialState sampleDates))))).
    reflexivity.
Defined.





(** The payroll scenario of the specification: 4200 + 4600 + 0 + 1800. *)
Example payroll_scenario : dailySpend_of scenarioCrew == 10600.
Proof. reflexivity. Qed.

Lemma crew_length_pos (s : WorkspaceState) :
  crew s <> [] -> (0 < List.length (crew s))%nat.
Proof. destruct (crew s); [congruence | simpl; lia]. Qed.

(** With a crew and a target that is not zero, the health figure is the
    rounded percentage, quotient and product in binary64. *)
Lemma crewHealth_finite (s : WorkspaceState) :
  crew s <> [] ->
  ~ targetCrew s == 0 ->
  Totals.crewHealth (totals s)
  = Math_round
      (Finite
         (round64
            (round64 (inject_Z (Z.of_nat (presentCount_of (crew s)))
                      / targetCrew s)
             * 100))).
Proof.
  intros Hcrew Ht. apply crew_length_pos in Hcrew.
  unfold totals. cbn [Totals.crewHealth].
  destruct (List.length (crew s)) as [|n] eqn:E; [lia|].
  cbn [Nat.eqb]. now rewrite js_div_nonzero.
Qed.

(** C4. An empty crew has health 0.  Otherwise the health is [Math.round]
    of [presentCount / target * 100], computed as JavaScript computes it,
    where [presentCount] is the number of crew members whose status is
    present and the target is the [crewSizeTarget] of the contractor
    resolved from the selection, or the size of the crew without one; the
    target not being zero, it is the integer nearest to the binary64 value of
    that expression, a tie going up.  With a target of 12 and exactly 6
    present crew members it is 50. *)
Theorem crew_health_metric (s : WorkspaceState) :
  let presentCount :=
    inject_Z
      (Z.of_nat
         (List.length
            (filter (fun worker =>
                       LabourStatus_eqb (Worker.status worker) present)
                    (crew s)))) in
  let target :=
    match selectedContractor s with
    | Some c => Contractor.crewSizeTarget c
    | None => inject_Z (Z.of_nat (List.length (crew s)))
    end in
  (crew s = [] -> Totals.crewHealth (totals s) = Finite 0)
  /\ (crew s <> [] ->
      Totals.crewHealth (totals s)
      = Math_round (js_mul (js_div presentCount target) 100))
  /\ (crew s <> [] ->
      ~ target == 0 ->
      exists z,
        Totals.crewHealth (totals s) = Finite (inject_Z z)
        /\ inject_Z z - 0.5 <= round64 (round64 (presentCount / target) * 100)
        /\ round64 (round64 (presentCount / target) * 100) < inject_Z z + 0.5)
  /\ (forall c, selectedContractor s = Some c ->
                Contractor.crewSizeTarget c == 12 ->
                List.length
                  (filter (fun worker =>
                             LabourStatus_eqb (Worker.status worker) present)
                          (crew s)) = 6%nat ->
                Totals.crewHealth (totals s) = Finite 50).
Proof.
  intros presentCount target.
  change target with (targetCrew s).
  change presentCount
    with (inject_Z (Z.of_nat (presentCount_of (crew s)))).
  clear presentCount target.
  split; [|split; [|split]].
  - intros E. unfold totals. cbn [Totals.crewHealth]. now rewrite E.
  - intros Hcrew. apply crew_length_pos in Hcrew.
    unfold totals. cbn [Totals.crewHealth].
    destruct (List.length (crew s)); [lia | reflexivity].
  - intros Hcrew Ht.
    destruct (Math_round_nearest
                (round64
                   (round64 (inject_Z (Z.of_nat (presentCount_of (crew s)))
                             / targetCrew s)
                    * 100))) as [z [Hz Hb]].
    exists z. rewrite crewHealth_finite by assumption.
    split; [exact Hz | exact Hb].
  - intros c Hsel Ht Hp.
    change (List.length _) with (presentCount_of (crew s)) in Hp.
    assert (Htc : targetCrew s == 12).
    { unfold targetCrew. now rewrite Hsel. }
    assert (Hcrew : crew s <> []).
    { intros E. rewrite E in Hp. discriminate. }
    rewrite crewHealth_finite; [|exact Hcrew|].
    2:{ rewrite Htc. discriminate. }
    rewrite Hp. unfold Math_round.
    change (Finite 50) with (Finite (inject_Z (Qfloor 50.5))).
    do 2 f_equal. apply Qfloor_comp.
    assert (Hq : round64 (inject_Z (Z.of_nat 6) / targetCrew s) == 0.5).
    { apply round64_exact; [reflexivity | apply representable_half|].
      rewrite Htc. reflexivity. }
    assert (Hr : round64 (round64 (inject_Z (Z.of_nat 6) / targetCrew s) * 100)
                 == 50).
    { apply round64_exact; [reflexivity | apply representable_50|].
      rewrite Hq. reflexivity. }
    rewrite Hr. reflexivity.
Qed.

Lemma crew_health_metric_witness :
  selectedContractor (presentCrew 12 6)
  = nth_error (contractors (presentCrew 12 6)) 0
  /\ List.length
       (filter (fun worker => LabourStatus_eqb (Worker.status worker) present)
               (crew (presentCrew 12 6))) = 6%nat
  /\ Totals.crewHealth (totals (presentCrew 12 6)) = Finite 50.
Proof.
  split; [reflexivity|]. split; [reflexivity|].
  eapply (proj2 (proj2 (proj2 (crew_health_metric (presentCrew 12 6))))).
  - reflexivity.
  - reflexivity.
  - reflexivity.
Defined.

(** 23 present of 40 with no contractor selected: the quotient is rounded
    to binary64 before it is multiplied, the product comes out just below
    57.5, and the health is 57. *)
Example crew_health_rounding :
  Totals.crewHealth (totals (run (hireSession 21 15) (initialState sampleDates)))
  = Finite 57.
Proof. vm_compute. reflexivity. Qed.

(** The division itself is not guarded: a target of zero, which no reachable
    state holds, gives an infinity. *)
Example crew_health_unguarded :
  Totals.crewHealth (totals (presentCrew 0 3)) = PosInfinity.
Proof. reflexivity. Qed.

Example crew_health_seed (sd : SeedDates) :
  Totals.crewHealth (totals (initialState sd)) = Finite 17.
Proof. reflexivity. Qed.

Lemma selectedContractor_seed (sd : SeedDates) (s : WorkspaceState) :
  contractors s = initialContractors sd ->
  selectedContractor s = None
  \/ (exists c, selectedContractor s = Some c
                /\ Contractor.crewSizeTarget c = 12)
  \/ (exists c, selectedContractor s = Some c
                /\ Contractor.crewSizeTarget c = 8).
Proof.
  intros Hc. unfold selectedContractor. rewrite Hc.
  destruct (selectedContractorId s) as [sel|]; [|now left].
  unfold initialContractors. cbn [find Contractor.id].
  destruct (String.eqb "c1" sel).
  - right. left. eexists. split; reflexivity.
  - destruct (String.eqb "c2" sel).
    + right. right. eexists. split; reflexivity.
    + now left.
Qed.

(** C10. In every state reached from the seed the contractors are the two
    seed contractors, so the divisor of the crew-health ratio is 12, 8 or,
    with no contractor resolved, the size of the crew; the division is made
    only for a crew that is not empty, the divisor is then positive, and
    the health figure is an integer, never an infinity or NaN. *)
Theorem crew_health_divisor_nonzero (sd : SeedDates) (s : WorkspaceState) :
  reachable sd s ->
  contractors s = initialContractors sd
  /\ (targetCrew s = 12 \/ targetCrew s = 8
      \/ (selectedContractor s = None
          /\ targetCrew s = inject_Z (Z.of_nat (List.length (crew s)))))
  /\ (crew s = [] -> Totals.crewHealth (totals s) = Finite 0)
  /\ (crew s <> [] ->
      0 < targetCrew s
      /\ exists z, Totals.crewHealth (totals s) = Finite (inject_Z z)).
Proof.
  intros [ms ->].
  set (s := run ms (initialState sd)).
  assert (Hc : contractors s = initialContractors sd)
    by apply contractors_run.
  assert (Ht : targetCrew s = 12 \/ targetCrew s = 8
               \/ (selectedContractor s = None
                   /\ targetCrew s
                      = inject_Z (Z.of_nat (List.length (crew s))))).
  { unfold targetCrew.
    destruct (selectedContractor_seed sd s Hc) as [E|[[c [E Hs]]|[c [E Hs]]]];
      rewrite E; auto. }
  split; [exact Hc|]. split; [exact Ht|]. split.
  - intros E. simpl. now rewrite E.
  - intros Hcrew.
    assert (Hpos : 0 < targetCrew s).
    { destruct Ht as [->|[->|[_ ->]]]; try reflexivity.
      apply crew_length_pos in Hcrew.
      unfold Qlt. simpl. lia. }
    split; [exact Hpos|].
    rewrite crewHealth_finite; [|exact Hcrew|].
    + simpl. eexists. reflexivity.
    + intros E. rewrite E in Hpos. discriminate.
Qed.

Lemma crew_health_divisor_nonzero_witness :
  reachable sampleDates (run sampleSession (initialState sampleDates))
  /\ 0 < targetCrew (run sampleSession (initialState sampleDates)).
Proof.
  assert (Hr : reachable sampleDates
                 (run sampleSession (initialState sampleDates)))
    by (now exists sampleSession).
  split; [exact Hr|].
  refine (proj1 (proj2 (proj2 (proj2
            (crew_health_divisor_nonzero sampleDates _ Hr))) _)).
  discriminate.
Defined.

Section KeyRisks.
Context `{DateFns} (now : Date).

Lemma budgetRisk_cases (s : WorkspaceState) :
  budgetRisk now s = [] \/ budgetRisk now s = [budgetExposureFlag].
Proof.
  unfold budgetRisk.
  destruct (selectedContractor s); [|now left].
  destruct (Number_truthy _); [|now left].
  destruct (differenceInDays _ _); [|now left].
  destruct (0 <? _)%Z; [|now left].
  destruct (Number_gt _ _); [now right | now left].
Qed.


(** The flags of [keyRisks], block by block. *)
Lemma keyRisks_blocks (s : WorkspaceState) :
  keyRisks now s
  = (if Nat.leb 2 (List.length (leaveHeads s))
     then [shortCrewFlag (List.length (leaveHeads s))] else [])
    ++ budgetRisk now s
    ++ (if Nat.ltb 0
             (List.length
                (filter (fun record =>
                           LabourStatus_eqb
                             (AttendanceRecord.presence record) absent)
                        (latestAttendance s)))
        then [attendanceFlag] else []).
Proof.
  unfold keyRisks.
  destruct (Nat.leb 2 _); destruct (Nat.ltb 0 _); simpl;
    now rewrite ?app_nil_r, <- ?app_assoc.
Qed.

Lemma shortCrewFlag_kind (n : nat) : isShortCrewFlag (shortCrewFlag n) = true.
Proof.
  unfold isShortCrewFlag, shortCrewFlag. simpl.
  match goal with |- String.prefix _ ?rest = true => now destruct rest end.
Qed.

Lemma shortCrewFlag_plural (n : nat) :
  (2 <= n)%nat ->
  shortCrewFlag n
  = ("Crew short by " ++ string_of_nat n ++ " specialists today.")%string.
Proof.
  intros Hn. unfold shortCrewFlag.
  destruct (Nat.ltb 1 n) eqn:E; [reflexivity|].
  apply Nat.ltb_ge in E. lia.
Qed.






(** C8. A flag of the short-crew kind is among the risk flags exactly
    when at least two crew members are on leave; it is then the message
    that names their number, in the plural; with one member on leave
    there is none. *)
Theorem short_crew_flag (s : WorkspaceState) :
  let onLeave :=
    List.length
      (filter (fun w => LabourStatus_eqb (Worker.status w) leave) (crew s)) in
  (existsb isShortCrewFlag (keyRisks now s) = true <-> (2 <= onLeave)%nat)
  /\ ((2 <= onLeave)%nat ->
      In ("Crew short by " ++ string_of_nat onLeave
          ++ " specialists today.")%string
         (keyRisks now s))
  /\ (forall flag, In flag (keyRisks now s) ->
                   isShortCrewFlag flag = true ->
                   flag = shortCrewFlag onLeave)
  /\ (onLeave = 1%nat -> existsb isShortCrewFlag (keyRisks now s) = false).
Proof.
  intros onLeave.
  assert (Hk : keyRisks now s
               = (if Nat.leb 2 onLeave then [shortCrewFlag onLeave] else [])
                 ++ budgetRisk now s
                 ++ (if Nat.ltb 0
                          (List.length
                             (filter (fun record =>
                                        LabourStatus_eqb
                                          (AttendanceRecord.presence record)
                                          absent)
                                     (latestAttendance s)))
                     then [attendanceFlag] else []))
    by apply keyRisks_blocks.
  assert (Hrest : forall flag,
             In flag (budgetRisk now s
                      ++ (if Nat.ltb 0
                               (List.length
                                  (filter (fun record =>
                                             LabourStatus_eqb
                                               (AttendanceRecord.presence
                                                  record) absent)
                                          (latestAttendance s)))
                          then [attendanceFlag] else [])) ->
             isShortCrewFlag flag = false).
  { intros flag Hin. apply in_app_or in Hin. destruct Hin as [Hb|Ha].
    - destruct (budgetRisk_cases s) as [E|E]; rewrite E in Hb.
      + destruct Hb.
      + destruct Hb as [<-|[]]. reflexivity.
    - destruct (Nat.ltb 0 _); [|destruct Ha].
      destruct Ha as [<-|[]]. reflexivity. }
  assert (Hex : existsb isShortCrewFlag (keyRisks now s)
                = Nat.leb 2 onLeave).
  { rewrite Hk, existsb_app.
    match goal with
    | |- (_ || existsb _ ?r)%bool = _ =>
        assert (Hr : existsb isShortCrewFlag r = false)
    end.
    { apply not_true_is_false. intros Ht.
      apply existsb_exists in Ht. destruct Ht as [f [Hin Hf]].
      apply Hrest in Hin. congruence. }
    rewrite Hr, orb_false_r.
    destruct (Nat.leb 2 onLeave); [|reflexivity].
    cbn [existsb]. now rewrite shortCrewFlag_kind. }
  split; [|split; [|split]].
  - rewrite Hex. apply Nat.leb_le.
  - intros Hn. rewrite <- shortCrewFlag_plural by exact Hn.
    rewrite Hk. apply in_or_app. left.
    apply Nat.leb_le in Hn. rewrite Hn. now left.
  - intros flag Hin Hf. rewrite Hk in Hin.
    apply in_app_or in Hin. destruct Hin as [Hs|Hr].
    + destruct (Nat.leb 2 onLeave); [|destruct Hs].
      destruct Hs as [<-|[]]. reflexivity.
    + apply Hrest in Hr. congruence.
  - intros E. rewrite Hex, E. reflexivity.
Qed.
End KeyRisks.


(** On the seed the daily spend of the budget block is the sum [totals]
    shows: no addition rounds. *)
Example dailySpendNumber_seed (sd : SeedDates) :
  dailySpendNumber (crew (initialState sd)) = Finite 8800
  /\ Totals.dailySpend (totals (initialState sd)) == 8800.
Proof. split; [vm_compute|]; reflexivity. Qed.

(** The sum rounds where the code rounds: the rates nearest to 0.1 and 0.2
    add up to 0.30000000000000004. *)
Example dailySpendNumber_rounds :
  dailySpendNumber
    [ Worker.Make "w1" "A" "T" (round64 0.1) present None "c1";
      Worker.Make "w2" "B" "T" (round64 0.2) present None "c1" ]
  = Finite (Qred (round64 0.30000000000000004)).
Proof. vm_compute. reflexivity. Qed.

(** A sum that leaves the range of binary64 is an infinity. *)
Example dailySpendNumber_overflow :
  dailySpendNumber
    [ Worker.Make "w1" "A" "T" (17 * 10 ^ 307) present None "c1";
      Worker.Make "w2" "B" "T" (17 * 10 ^ 307) present None "c1";
      Worker.Make "w3" "C" "T" (- (17 * 10 ^ 307)) present None "c1" ]
  = PosInfinity.
Proof. vm_compute. reflexivity. Qed.

(** The budget boundary of the specification: 30 days left and a budget of
    100000; a daily spend of 1000 projects 30000 and raises nothing, one of
    1500 projects 45000 and raises the flag. *)
Example budget_boundary_below :
  ~ In budgetExposureFlag
       (@keyRisks sampleCalendar sampleNow (oneCrew 100000 1000 present)).
Proof. vm_compute. tauto. Qed.

Example budget_boundary_above :
  In budgetExposureFlag
     (@keyRisks sampleCalendar sampleNow (oneCrew 100000 1500 present)).
Proof. vm_compute. tauto. Qed.

(** Seven days left, a daily spend of 550 and a budget of 9625: in exact
    arithmetic the projection would equal 40% of the budget, in binary64 it
    is 3850.0000000000005 and the flag is raised. *)
Example budget_boundary_rounds_up :
  In budgetExposureFlag
     (@keyRisks sampleCalendar 158%Z (oneCrew 9625 550 present)).
Proof. vm_compute. tauto. Qed.

(** Thirteen days left, a budget of 180000 and the daily spend nearest to
    5538.461538461539: the projection is rounded to 72000, which does not
    exceed 40% of the budget, and no flag is raised. *)
Example budget_boundary_rounds_down :
  ~ In budgetExposureFlag
       (@keyRisks sampleCalendar 152%Z
          (oneCrew 180000 (round64 5538.461538461539) present)).
Proof. vm_compute. tauto. Qed.

Lemma short_crew_flag_witness :
  In "Crew short by 2 specialists today."
     (@keyRisks sampleCalendar sampleNow
        (run [UpdateWorkerStatus "w1" leave; UpdateWorkerStatus "w2" leave]
             (initialState sampleDates)))
  /\ existsb isShortCrewFlag
       (@keyRisks sampleCalendar sampleNow
          (run [UpdateWorkerStatus "w1" leave] (initialState sampleDates)))
     = false.
Proof.
  split.
  - apply (proj1 (proj2 (@short_crew_flag sampleCalendar sampleNow
                           (run [UpdateWorkerStatus "w1" leave;
                                 UpdateWorkerStatus "w2" leave]
                                (initialState sampleDates))))).
    simpl. lia.
  - apply (proj2 (proj2 (proj2 (@short_crew_flag sampleCalendar sampleNow
                                  (run [UpdateWorkerStatus "w1" leave]
                                       (initialState sampleDates)))))).
    reflexivity.
Defined.

(** * More properties of the store *)

Section UpdateFirstMore.
Context {A : Type} (p : A -> bool) (f : A -> A).

Lemma update_first_split (pre post : list A) (x : A) :
  (forall y, In y pre -> p y = false) ->
  p x = true ->
  update_first p f (pre ++ x :: post) = pre ++ f x :: post.
Proof.
  intros Hpre Hx. induction pre as [|y r IH]; simpl.
  - now rewrite Hx.
  - rewrite (Hpre y (or_introl eq_refl)). f_equal.
    apply IH. intros z Hz. apply Hpre. now right.
Qed.

Lemma update_first_again (g : A -> A) (l : list A) :
  (forall x, p (f x) = p x) ->
  (forall x, g (f x) = g x) ->
  update_first p g (update_first p f l) = update_first p g l.
Proof.
  intros Hp Hg. induction l as [|x r IH]; simpl; [reflexivity|].
  destruct (p x) eqn:E; simpl.
  - now rewrite Hp, E, Hg.
  - now rewrite E, IH.
Qed.

Lemma update_first_filter_map {B : Type} (q : A -> bool) (g : A -> B)
  (l : list A) :
  (forall x, q (f x) = q x) ->
  (forall x, g (f x) = g x) ->
  map g (filter q (update_first p f l)) = map g (filter q l).
Proof.
  intros Hq Hg. induction l as [|x r IH]; simpl; [reflexivity|].
  destruct (p x); simpl.
  - rewrite Hq. destruct (q x); simpl; [now rewrite Hg | reflexivity].
  - destruct (q x); simpl; now rewrite IH.
Qed.

End UpdateFirstMore.

Lemma update_first_swap {A : Type} (p q : A -> bool) (f g : A -> A)
  (l : list A) :
  (forall x, p x = true -> q x = false) ->
  (forall x, p (g x) = p x) ->
  (forall x, q (f x) = q x) ->
  update_first p f (update_first q g l) = update_first q g (update_first p f l).
Proof.
  intros Hpq Hp Hq. induction l as [|x r IH]; simpl; [reflexivity|].
  destruct (p x) eqn:Ep, (q x) eqn:Eq; simpl.
  - apply Hpq in Ep. congruence.
  - now rewrite Ep, Hq, Eq.
  - now rewrite Hp, Ep, Eq.
  - now rewrite Ep, Eq, IH.
Qed.

(** X1. When some worker carries the id, [updateWorkerStatus] rewrites the
    status of the first such worker, where it stands, and nothing else: the
    other workers, later ones with the same id included, and the other
    collections and the selection are as before. *)
Theorem updateWorkerStatus_first_match (s : WorkspaceState)
  (pre post : list Worker.t) (w : Worker.t) (status : LabourStatus) :
  workers s = pre ++ w :: post ->
  (forall x, In x pre -> Worker.id x <> Worker.id w) ->
  updateWorkerStatus (Worker.id w) status s
  = MkState (contractors s)
            (pre ++ Worker.Make (Worker.id w) (Worker.name w) (Worker.trade w)
                      (Worker.dailyRate w) status (Worker.phone w)
                      (Worker.contractorId w) :: post)
            (attendance s) (payments s) (selectedContractorId s).
Proof.
  intros Hw Hpre. unfold updateWorkerStatus. rewrite Hw.
  rewrite update_first_split; [reflexivity| |apply String.eqb_refl].
  intros y Hy. apply String.eqb_neq. now apply Hpre.
Qed.

Lemma updateWorkerStatus_first_match_witness :
  workers (initialState sampleDates)
  = firstn 2 initialWorkers
    ++ Worker.Make "w3" "Michael Lopez" "Foreman" 5800 leave
         (Some "+1 415-555-2010") "c2"
    :: skipn 3 initialWorkers
  /\ map Worker.status
       (workers (updateWorkerStatus "w3" present (initialState sampleDates)))
     = [present; present; present; standby].
Proof.
  split; [reflexivity|].
  assert (Hpre : forall x, In x (firstn 2 initialWorkers) ->
                           Worker.id x <> "w3").
  { simpl. intros x Hx. intuition (subst; discriminate). }
  exact (f_equal (fun st => map Worker.status (workers st))
           (updateWorkerStatus_first_match (initialState sampleDates)
              (firstn 2 initialWorkers) (skipn 3 initialWorkers)
              (Worker.Make "w3" "Michael Lopez" "Foreman" 5800 leave
                 (Some "+1 415-555-2010") "c2")
              present eq_refl Hpre)).
Defined.

(** X2. When some attendance record carries the id,
    [updateAttendancePresence] rewrites the presence of the first such
    record, where it stands, and nothing else; in particular the workers,
    and so the status of the worker the record refers to, are untouched. *)
Theorem updateAttendancePresence_first_match (s : WorkspaceState)
  (pre post : list AttendanceRecord.t) (r : AttendanceRecord.t)
  (presence : LabourStatus) :
  attendance s = pre ++ r :: post ->
  (forall x, In x pre -> AttendanceRecord.id x <> AttendanceRecord.id r) ->
  updateAttendancePresence (AttendanceRecord.id r) presence s
  = MkState (contractors s) (workers s)
            (pre ++ AttendanceRecord.Make (AttendanceRecord.id r)
                      (AttendanceRecord.workerId r) (AttendanceRecord.date r)
                      (AttendanceRecord.hoursWorked r) presence
                      (AttendanceRecord.remarks r) (AttendanceRecord.site r)
                    :: post)
            (payments s) (selectedContractorId s).
Proof.
  intros Hr Hpre. unfold updateAttendancePresence. rewrite Hr.
  rewrite update_first_split; [reflexivity| |apply String.eqb_refl].
  intros y Hy. apply String.eqb_neq. now apply Hpre.
Qed.

Lemma updateAttendancePresence_first_match_witness :
  attendance (initialState sampleDates)
  = firstn 1 (initialAttendance sampleDates)
    ++ AttendanceRecord.Make "a2" "w2" "2024-05-14" 7.5 present
         (Some "Pressure test follow-up") "Tower B roof"
    :: skipn 2 (initialAttendance sampleDates)
  /\ map AttendanceRecord.presence
       (attendance (updateAttendancePresence "a2" absent
                      (initialState sampleDates)))
     = [present; absent; leave].
Proof.
  split; [reflexivity|].
  assert (Hpre : forall x, In x (firstn 1 (initialAttendance sampleDates)) ->
                           AttendanceRecord.id x <> "a2").
  { simpl. intros x Hx. intuition (subst; discriminate). }
  exact (f_equal (fun st => map AttendanceRecord.presence (attendance st))
           (updateAttendancePresence_first_match (initialState sampleDates)
              (firstn 1 (initialAttendance sampleDates))
              (skipn 2 (initialAttendance sampleDates))
              (AttendanceRecord.Make "a2" "w2" "2024-05-14" 7.5 present
                 (Some "Pressure test follow-up") "Tower B roof")
              absent eq_refl Hpre)).
Defined.

(** X3. Of two status updates of the same worker id the later one wins:
    the first leaves no trace. *)
Theorem updateWorkerStatus_last_wins (s : WorkspaceState) (workerId : string)
  (first second : LabourStatus) :
  updateWorkerStatus workerId second (updateWorkerStatus workerId first s)
  = updateWorkerStatus workerId second s.
Proof.
  unfold updateWorkerStatus. simpl. f_equal.
  apply update_first_again; intros []; reflexivity.
Qed.

(** X4. Status updates of two different worker ids commute. *)
Theorem updateWorkerStatus_commute (s : WorkspaceState) (id1 id2 : string)
  (st1 st2 : LabourStatus) :
  id1 <> id2 ->
  updateWorkerStatus id1 st1 (updateWorkerStatus id2 st2 s)
  = updateWorkerStatus id2 st2 (updateWorkerStatus id1 st1 s).
Proof.
  intros Hne. unfold updateWorkerStatus. simpl. f_equal.
  apply update_first_swap.
  - intros x Hx. apply String.eqb_eq in Hx. apply String.eqb_neq. congruence.
  - intros []; reflexivity.
  - intros []; reflexivity.
Qed.

Lemma updateWorkerStatus_commute_witness :
  updateWorkerStatus "w1" leave
    (updateWorkerStatus "w4" present (initialState sampleDates))
  = updateWorkerStatus "w4" present
      (updateWorkerStatus "w1" leave (initialState sampleDates)).
Proof.
  apply (updateWorkerStatus_commute (initialState sampleDates) "w1" "w4").
  discriminate.
Defined.

Lemma run_snoc (ms : list Mutation) (m : Mutation) (s : WorkspaceState) :
  run (ms ++ [m]) s = apply m (run ms s).
Proof. unfold run. now rewrite fold_left_app. Qed.

Lemma addedPayments_snoc (ms : list Mutation) (m : Mutation) :
  addedPayments (ms ++ [m]) = addedPayments ms ++ addedPayments [m].
Proof.
  induction ms as [|x r IH]; simpl; [reflexivity|].
  destruct x; simpl; now rewrite IH.
Qed.

Lemma addedWorkers_snoc (ms : list Mutation) (m : Mutation) :
  addedWorkers (ms ++ [m]) = addedWorkers ms ++ addedWorkers [m].
Proof.
  induction ms as [|x r IH]; simpl; [reflexivity|].
  destruct x; simpl; now rewrite IH.
Qed.

Lemma addedAttendance_snoc (ms : list Mutation) (m : Mutation) :
  addedAttendance (ms ++ [m]) = addedAttendance ms ++ addedAttendance [m].
Proof.
  induction ms as [|x r IH]; simpl; [reflexivity|].
  destruct x; simpl; now rewrite IH.
Qed.

(** X5. The payments are an append-only log: after any session they are
    the payments the session added, newest first, followed by the payments
    that were there, unchanged. *)
Theorem session_payments (ms : list Mutation) (s : WorkspaceState) :
  payments (run ms s) = rev (addedPayments ms) ++ payments s.
Proof.
  induction ms as [|m r IH] using rev_ind; [reflexivity|].
  rewrite run_snoc, addedPayments_snoc, rev_app_distr, <- app_assoc, <- IH.
  destruct m; reflexivity.
Qed.

(** X6. After any session the workers are those that were there, in their
    order, followed by the workers the session added, oldest first; no
    worker is dropped and, the status apart, no field of a worker is ever
    rewritten. *)
Theorem session_workers (ms : list Mutation) (s : WorkspaceState) :
  map workerCore (workers (run ms s))
  = map workerCore (workers s) ++ map workerCore (addedWorkers ms).
Proof.
  induction ms as [|m r IH] using rev_ind.
  - simpl. now rewrite app_nil_r.
  - rewrite run_snoc, addedWorkers_snoc, map_app, app_assoc, <- IH.
    destruct m; simpl; rewrite ?app_nil_r; try reflexivity.
    + apply update_first_map. intros []; reflexivity.
    + now rewrite map_app.
Qed.

(** X7. After any session the attendance log is the records the session
    added, newest first, followed by the records that were there, in their
    order; no record is dropped and, the presence apart, no field of a
    record is ever rewritten. *)
Theorem session_attendance (ms : list Mutation) (s : WorkspaceState) :
  map attendanceCore (attendance (run ms s))
  = map attendanceCore (rev (addedAttendance ms))
    ++ map attendanceCore (attendance s).
Proof.
  induction ms as [|m r IH] using rev_ind; [reflexivity|].
  rewrite run_snoc, addedAttendance_snoc, rev_app_distr, map_app,
    <- app_assoc, <- IH.
  destruct m; simpl; try reflexivity.
  apply update_first_map. intros []; reflexivity.
Qed.

(** X8. The selection after a session is the argument of its last
    [setSelectedContractor] call, or the selection it started from when it
    made none; no other operation moves it. *)
Theorem session_selection (ms : list Mutation) (s : WorkspaceState) :
  selectedContractorId (run ms s) = lastSelection ms (selectedContractorId s).
Proof.
  revert s. induction ms as [|m r IH]; intros s; [reflexivity|].
  rewrite run_cons, IH. destruct m; reflexivity.
Qed.

(** * More properties of the dashboard derivations *)

Lemma crew_In (s : WorkspaceState) (w : Worker.t) :
  In w (crew s)
  <-> In w (workers s)
      /\ (forall c, selectedContractor s = Some c ->
                    Worker.contractorId w = Contractor.id c).
Proof.
  unfold crew. rewrite filter_In. destruct (selectedContractor s) as [c|].
  - rewrite String.eqb_eq. split.
    + intros [Hin E]. split; [exact Hin|]. intros c' Hc. now injection Hc as <-.
    + intros [Hin E]. split; [exact Hin|]. now apply E.
  - split; [|tauto]. intros [Hin _]. split; [exact Hin|]. discriminate.
Qed.

Lemma latestAttendance_In (s : WorkspaceState) (r : AttendanceRecord.t) :
  In r (latestAttendance s)
  <-> In r (attendance s)
      /\ exists w, In w (crew s)
                   /\ Worker.id w = AttendanceRecord.workerId r.
Proof.
  unfold latestAttendance. rewrite filter_In, existsb_exists.
  split; intros [Hin [w [Hw E]]]; (split; [exact Hin|]); exists w;
    (split; [exact Hw|]); now apply String.eqb_eq.
Qed.

Lemma latestPayments_In (s : WorkspaceState) (p : Payment.t) :
  In p (latestPayments s)
  <-> In p (payments s)
      /\ exists w, In w (crew s) /\ Worker.id w = Payment.workerId p.
Proof.
  unfold latestPayments. rewrite filter_In, existsb_exists.
  split; intros [Hin [w [Hw E]]]; (split; [exact Hin|]); exists w;
    (split; [exact Hw|]); now apply String.eqb_eq.
Qed.

(** X9. A record of the attendance log, or a payment, is in scope exactly
    when its [workerId] is the id of some worker and, a contractor being
    resolved from the selection, that worker belongs to the contractor;
    a record that refers to no worker is in no scope. *)
Theorem scoped_logs (s : WorkspaceState) :
  (forall r,
      In r (latestAttendance s)
      <-> In r (attendance s)
          /\ exists w, In w (workers s)
                       /\ Worker.id w = AttendanceRecord.workerId r
                       /\ (forall c, selectedContractor s = Some c ->
                                     Worker.contractorId w = Contractor.id c))
  /\ (forall p,
         In p (latestPayments s)
         <-> In p (payments s)
             /\ exists w, In w (workers s)
                          /\ Worker.id w = Payment.workerId p
                          /\ (forall c, selectedContractor s = Some c ->
                                        Worker.contractorId w
                                        = Contractor.id c)).
Proof.
  split; intros x.
  - rewrite latestAttendance_In. split.
    + intros [Hin [w [Hw E]]]. apply crew_In in Hw.
      split; [exact Hin|]. exists w. tauto.
    + intros [Hin [w [Hw [E Hc]]]]. split; [exact Hin|]. exists w.
      split; [|exact E]. apply crew_In. tauto.
  - rewrite latestPayments_In. split.
    + intros [Hin [w [Hw E]]]. apply crew_In in Hw.
      split; [exact Hin|]. exists w. tauto.
    + intros [Hin [w [Hw [E Hc]]]]. split; [exact Hin|]. exists w.
      split; [|exact E]. apply crew_In. tauto.
Qed.

(** X10. "Recent Attendance" shows at most six rows, each a record of the
    attendance log, and each row finds its worker in the crew: the
    placeholder name is never what [rowName] answers for want of a
    worker. *)
Theorem recent_attendance_rows (s : WorkspaceState) :
  (List.length (recentAttendance s) <= 6)%nat
  /\ (forall r, In r (recentAttendance s) ->
                In r (attendance s)
                /\ exists w, rowWorker s r = Some w
                             /\ In w (crew s)
                             /\ Worker.id w = AttendanceRecord.workerId r
                             /\ rowName s r = Worker.name w).
Proof.
  split; [apply firstn_le_length|].
  intros r Hr.
  assert (Hin : In r (latestAttendance s)).
  { rewrite <- (firstn_skipn 6 (latestAttendance s)).
    apply in_or_app. now left. }
  apply latestAttendance_In in Hin. destruct Hin as [Hatt [w [Hw E]]].
  split; [exact Hatt|].
  unfold rowName, rowWorker.
  destruct (find _ (crew s)) as [w'|] eqn:F.
  - apply find_some in F. destruct F as [Hw' E'].
    apply String.eqb_eq in E'. exists w'. auto.
  - apply (find_none _ _ F) in Hw. apply String.eqb_neq in Hw. contradiction.
Qed.

Lemma update_first_filter_map_crew (s : WorkspaceState) (workerId : string)
  (status : LabourStatus) :
  map workerCore (crew (updateWorkerStatus workerId status s))
  = map workerCore (crew s).
Proof.
  unfold crew.
  change (selectedContractor (updateWorkerStatus workerId status s))
    with (selectedContractor s).
  apply update_first_filter_map; intros []; reflexivity.
Qed.

(** X11. Changing a status, or logging attendance or a payment, never
    changes who is in the crew: the crew is the same workers in the same
    order, their status apart. *)
Theorem crew_membership_stable (s : WorkspaceState) :
  (forall workerId status,
      map workerCore (crew (updateWorkerStatus workerId status s))
      = map workerCore (crew s))
  /\ (forall id presence, crew (updateAttendancePresence id presence s) = crew s)
  /\ (forall uuid input, crew (addAttendance uuid input s) = crew s)
  /\ (forall uuid input, crew (addPayment uuid input s) = crew s).
Proof.
  repeat split. intros workerId status. apply update_first_filter_map_crew.
Qed.



Lemma filter_split_length {A : Type} (p : A -> bool) (l : list A) :
  (List.length (filter p l)
   + List.length (filter (fun x => negb (p x)) l))%nat
  = List.length l.
Proof.
  induction l as [|x r IH]; simpl; [reflexivity|].
  destruct (p x); simpl; lia.
Qed.

(** X13. [offCount] is the number of crew members whose status is not
    present: it is never negative and, with [presentCount], adds up to the
    size of the crew. *)
Theorem offCount_counts (s : WorkspaceState) :
  Totals.offCount (totals s)
  = Z.of_nat
      (List.length
         (filter (fun w => negb (LabourStatus_eqb (Worker.status w) present))
                 (crew s)))
  /\ (0 <= Totals.offCount (totals s))%Z
  /\ (Z.of_nat (Totals.presentCount (totals s)) + Totals.offCount (totals s)
      = Z.of_nat (List.length (crew s)))%Z.
Proof.
  unfold totals. cbn [Totals.offCount Totals.presentCount].
  unfold presentCount_of.
  pose proof (filter_split_length
                (fun w => LabourStatus_eqb (Worker.status w) present)
                (crew s)) as H.
  cbv beta in H. repeat split; lia.
Qed.




Lemma LabourStatus_eqb_eq (a b : LabourStatus) :
  LabourStatus_eqb a b = true <-> a = b.
Proof. destruct a, b; simpl; split; congruence. Qed.

Lemma filter_nonempty {A : Type} (p : A -> bool) (l : list A) :
  Nat.ltb 0 (List.length (filter p l)) = true
  <-> exists x, In x l /\ p x = true.
Proof.
  rewrite Nat.ltb_lt. split.
  - destruct (filter p l) as [|x r] eqn:E; simpl; [lia|]. intros _.
    exists x. apply filter_In. rewrite E. now left.
  - intros [x Hx]. apply filter_In in Hx.
    destruct (filter p l); [destruct Hx | simpl; lia].
Qed.

Section KeyRisksMore.
Context `{DateFns} (now : Date).

(** X15. The attendance follow-up flag is raised exactly when some record
    of the attendance log is marked absent and refers to a member of the
    crew, and it is raised once however many such records there are. *)
Theorem attendance_followup_flag (s : WorkspaceState) :
  (In attendanceFlag (keyRisks now s)
   <-> exists r w,
         In r (attendance s)
         /\ AttendanceRecord.presence r = absent
         /\ In w (crew s)
         /\ Worker.id w = AttendanceRecord.workerId r)
  /\ (count_occ string_dec (keyRisks now s) attendanceFlag <= 1)%nat.
Proof.
  rewrite keyRisks_blocks. split.
  - rewrite !in_app_iff. split.
    + intros [Hs|[Hb|Ha]].
      * destruct (Nat.leb 2 _); [|destruct Hs].
        destruct Hs as [E|[]]. discriminate E.
      * destruct (budgetRisk_cases now s) as [E|E]; rewrite E in Hb;
          [destruct Hb|]. destruct Hb as [E'|[]]. discriminate E'.
      * destruct (Nat.ltb 0 _) eqn:E; [|destruct Ha].
        apply filter_nonempty in E. destruct E as [r [Hr Hp]].
        apply LabourStatus_eqb_eq in Hp.
        apply latestAttendance_In in Hr. destruct Hr as [Hatt [w [Hw Hid]]].
        exists r, w. auto.
    + intros [r [w [Hatt [Hp [Hw Hid]]]]]. right. right.
      assert (E : Nat.ltb 0
                    (List.length
                       (filter (fun record =>
                                  LabourStatus_eqb
                                    (AttendanceRecord.presence record) absent)
                               (latestAttendance s))) = true).
      { apply filter_nonempty. exists r. split.
        - apply latestAttendance_In. split; [exact Hatt|]. now exists w.
        - now apply LabourStatus_eqb_eq. }
      rewrite E. now left.
  - rewrite !count_occ_app.
    destruct (Nat.leb 2 _); destruct (budgetRisk_cases now s) as [E|E];
      rewrite E; destruct (Nat.ltb 0 _); simpl; lia.
Qed.

(** X16. The risk flags come in a fixed order, short crew, then budget
    exposure, then attendance follow-up, each at most once: at most three
    flags and no flag twice. *)
Theorem keyRisks_shape (s : WorkspaceState) :
  (exists short budget follow : bool,
      keyRisks now s
      = (if short then [shortCrewFlag (List.length (leaveHeads s))] else [])
        ++ (if budget then [budgetExposureFlag] else [])
        ++ (if follow then [attendanceFlag] else []))
  /\ (List.length (keyRisks now s) <= 3)%nat
  /\ NoDup (keyRisks now s).
Proof.
  rewrite keyRisks_blocks.
  assert (Hb : exists b : bool,
             budgetRisk now s = if b then [budgetExposureFlag] else []).
  { destruct (budgetRisk_cases now s) as [E|E]; rewrite E;
      [now exists false | now exists true]. }
  destruct Hb as [b Hb]. rewrite Hb.
  split; [|split].
  - now exists (Nat.leb 2 (List.length (leaveHeads s))), b,
      (Nat.ltb 0
         (List.length
            (filter (fun record =>
                       LabourStatus_eqb (AttendanceRecord.presence record)
                                        absent)
                    (latestAttendance s)))).
  - destruct (Nat.leb 2 _), b, (Nat.ltb 0 _); simpl; lia.
  - assert (N1 : shortCrewFlag (List.length (leaveHeads s))
                 <> budgetExposureFlag) by discriminate.
    assert (N2 : shortCrewFlag (List.length (leaveHeads s))
                 <> attendanceFlag) by discriminate.
    assert (N3 : budgetExposureFlag <> attendanceFlag) by discriminate.
    destruct (Nat.leb 2 _), b, (Nat.ltb 0 _); simpl;
      repeat (constructor; [simpl; intuition congruence|]); constructor.
Qed.
End KeyRisksMore.

Lemma ratio_range (p n : nat) :
  (0 < n)%nat -> (p <= n)%nat ->
  0 <= inject_Z (Z.of_nat p) / inject_Z (Z.of_nat n)
  /\ inject_Z (Z.of_nat p) / inject_Z (Z.of_nat n) <= 1.
Proof.
  intros Hn Hp.
  assert (HT : 0 < inject_Z (Z.of_nat n)).
  { unfold Qlt. simpl. lia. }
  assert (HP0 : 0 <= inject_Z (Z.of_nat p)).
  { unfold Qle. simpl. lia. }
  assert (HPT : inject_Z (Z.of_nat p) <= inject_Z (Z.of_nat n)).
  { rewrite <- Zle_Qle. lia. }
  split.
  - apply Qle_shift_div_l; [exact HT|]. lra.
  - apply Qle_shift_div_r; [exact HT|]. lra.
Qed.

(** A share of a whole, as a binary64 percentage, lies between 0 and 100. *)
Lemma percentage_range (p n : nat) :
  (0 < n)%nat -> (p <= n)%nat ->
  0 <= round64 (round64 (inject_Z (Z.of_nat p) / inject_Z (Z.of_nat n)) * 100)
  /\ round64 (round64 (inject_Z (Z.of_nat p) / inject_Z (Z.of_nat n)) * 100)
     <= 100.
Proof.
  intros Hn Hp. destruct (ratio_range p n Hn Hp) as [H0 H1].
  destruct (round64_between _ 1 H0 H1 eq_refl representable_1) as [Hq0 Hq1].
  apply round64_between; [lra | lra | reflexivity | apply representable_100].
Qed.

(** X18. With no contractor resolved from the selection and a crew that is
    not empty, the crew health is a whole percentage between 0 and 100: 100
    when every crew member is present, 0 when none is. *)
Theorem crew_health_percentage (s : WorkspaceState) :
  selectedContractor s = None ->
  crew s <> [] ->
  exists z,
    Totals.crewHealth (totals s) = Finite (inject_Z z)
    /\ (0 <= z <= 100)%Z
    /\ (Totals.presentCount (totals s) = List.length (crew s) -> z = 100%Z)
    /\ (Totals.presentCount (totals s) = 0%nat -> z = 0%Z).
Proof.
  intros Hsel Hcrew.
  change (Totals.presentCount (totals s)) with (presentCount_of (crew s)).
  assert (Ht : targetCrew s = inject_Z (Z.of_nat (List.length (crew s)))).
  { unfold targetCrew. now rewrite Hsel. }
  pose proof (crew_length_pos s Hcrew) as Hn.
  assert (Hp : (presentCount_of (crew s) <= List.length (crew s))%nat)
    by apply filter_length_le.
  destruct (percentage_range _ _ Hn Hp) as [H0 H100].
  assert (HT : ~ inject_Z (Z.of_nat (List.length (crew s))) == 0).
  { unfold Qeq. simpl. lia. }
  rewrite crewHealth_finite; [|exact Hcrew|now rewrite Ht].
  rewrite Ht. unfold Math_round. eexists. split; [reflexivity|].
  set (r := round64
              (round64 (inject_Z (Z.of_nat (presentCount_of (crew s)))
                        / inject_Z (Z.of_nat (List.length (crew s))))
               * 100)) in *.
  split; [|split].
  - split.
    + change 0%Z with (Qfloor 0.5). apply Qfloor_resp_le. lra.
    + change 100%Z with (Qfloor 100.5). apply Qfloor_resp_le. lra.
  - intros E. change 100%Z with (Qfloor 100.5). apply Qfloor_comp.
    assert (Hq : round64
                   (inject_Z (Z.of_nat (presentCount_of (crew s)))
                    / inject_Z (Z.of_nat (List.length (crew s)))) == 1).
    { apply round64_exact; [reflexivity | apply representable_1|].
      rewrite E. field. exact HT. }
    assert (Hr : r == 100).
    { unfold r. apply round64_exact;
        [reflexivity | apply representable_100|].
      rewrite Hq. reflexivity. }
    rewrite Hr. reflexivity.
  - intros E. change 0%Z with (Qfloor 0.5). apply Qfloor_comp.
    assert (Hq : round64
                   (inject_Z (Z.of_nat (presentCount_of (crew s)))
                    / inject_Z (Z.of_nat (List.length (crew s)))) = 0).
    { apply round64_zero. rewrite E. field. exact HT. }
    assert (Hr : r = 0).
    { unfold r. apply round64_zero. rewrite Hq. ring. }
    rewrite Hr. reflexivity.
Qed.

Lemma crew_health_percentage_witness :
  selectedContractor (setSelectedContractor None (initialState sampleDates))
  = None
  /\ exists z,
       Totals.crewHealth
         (totals (setSelectedContractor None (initialState sampleDates)))
       = Finite (inject_Z z)
       /\ (0 <= z <= 100)%Z.
Proof.
  split; [reflexivity|].
  destruct (crew_health_percentage
              (setSelectedContractor None (initialState sampleDates))
              eq_refl) as [z [Hz [Hr _]]].
  - discriminate.
  - exists z. split; assumption.
Defined.

Lemma actionSuggestions_blocks (s : WorkspaceState) :
  actionSuggestions s
  = (if negb (Nat.eqb (List.length (standbyCrew s)) 0)
     then [redeploySuggestion (List.length (standbyCrew s))] else [])
    ++ (if Nat.ltb 1 (deductionCount s) then [deductionSuggestion] else [])
    ++ [briefSuggestion].
Proof.
  unfold actionSuggestions.
  destruct (negb _); destruct (Nat.ltb 1 _); reflexivity.
Qed.

Lemma actionSuggestions_guards (s : WorkspaceState) :
  (forall d, last (actionSuggestions s) d = briefSuggestion)
  /\ (1 <= List.length (actionSuggestions s) <= 3)%nat
  /\ (existsb (fun item =>
                 String.eqb (Suggestion.title item) "Redeploy standby crew")
              (actionSuggestions s) = true
      <-> standbyCrew s <> [])
  /\ (standbyCrew s <> [] ->
      In (Suggestion.Make "Redeploy standby crew"
            ("Assign " ++ string_of_nat (List.length (standbyCrew s))
             ++ (if Nat.eqb (List.length (standbyCrew s)) 1
                 then " standby member" else " standby members")
             ++ " to BlueWave shaft prep.")%string
            "Crew")
         (actionSuggestions s))
  /\ (In deductionSuggestion (actionSuggestions s)
      <-> (2 <= deductionCount s)%nat).
Proof.
  rewrite actionSuggestions_blocks.
  assert (Hne : negb (Nat.eqb (List.length (standbyCrew s)) 0) = true
                <-> standbyCrew s <> []).
  { destruct (standbyCrew s); simpl; split; congruence. }
  split; [|split; [|split; [|split]]].
  - intros d. destruct (negb _), (Nat.ltb 1 _); reflexivity.
  - destruct (negb _), (Nat.ltb 1 _); simpl; lia.
  - rewrite <- Hne.
    destruct (negb _), (Nat.ltb 1 _); simpl; split; congruence.
  - intros Hs. apply Hne in Hs. rewrite Hs. left.
    unfold redeploySuggestion.
    destruct (List.length (standbyCrew s)) as [|[|n]];
      [discriminate Hs | reflexivity | reflexivity].
  - rewrite !in_app_iff. split.
    + intros [H1|[H2|H3]].
      * destruct (negb _); [|destruct H1].
        destruct H1 as [E|[]]. discriminate E.
      * destruct (Nat.ltb 1 _) eqn:E; [|destruct H2].
        apply Nat.ltb_lt in E. lia.
      * destruct H3 as [E|[]]. discriminate E.
    + intros Hd. right. left.
      apply Nat.ltb_lt in Hd. rewrite Hd. now left.
Qed.

Lemma standby_member_iff (s : WorkspaceState) :
  standbyCrew s <> []
  <-> exists w, In w (crew s) /\ Worker.status w = standby.
Proof.
  unfold standbyCrew. split.
  - destruct (filter _ (crew s)) as [|w r] eqn:E; [congruence|]. intros _.
    assert (Hw : In w (filter (fun worker =>
                                 LabourStatus_eqb (Worker.status worker)
                                                  standby) (crew s)))
      by (rewrite E; now left).
    apply filter_In in Hw. destruct Hw as [Hin Hst].
    exists w. split; [exact Hin|]. now destruct (Worker.status w).
  - intros [w [Hin Hst]] E.
    assert (Hw : In w (filter (fun worker =>
                                 LabourStatus_eqb (Worker.status worker)
                                                  standby) (crew s))).
    { apply filter_In. split; [exact Hin|]. now rewrite Hst. }
    rewrite E in Hw. destruct Hw.
Qed.

(** X19. The suggestions always end with the daily brief, so there is at
    least one and at most three.  The redeployment suggestion is there
    exactly when some crew member has status standby; it names the number
    of crew members on standby and reads "member" for one and "members"
    for more.  The deduction review is there exactly when at least two of
    the payments whose worker is in the crew have category deduction. *)
Theorem action_suggestions (s : WorkspaceState) :
  let standbyMembers :=
    filter (fun worker => LabourStatus_eqb (Worker.status worker) standby)
           (crew s) in
  let deductions :=
    filter (fun payment =>
              PaymentCategory_eqb (Payment.category payment) deduction)
           (filter (fun payment =>
                      existsb (fun worker =>
                                 String.eqb (Worker.id worker)
                                            (Payment.workerId payment))
                              (crew s))
                   (payments s)) in
  (forall d,
      last (actionSuggestions s) d
      = Suggestion.Make "Daily AI brief"
          "Use quick brief below to align contractor, labour captain, and supplier."
          "AI Agent")
  /\ (1 <= List.length (actionSuggestions s) <= 3)%nat
  /\ (existsb (fun item =>
                 String.eqb (Suggestion.title item) "Redeploy standby crew")
              (actionSuggestions s) = true
      <-> exists w, In w (crew s) /\ Worker.status w = standby)
  /\ ((exists w, In w (crew s) /\ Worker.status w = standby) ->
      In (Suggestion.Make "Redeploy standby crew"
            ("Assign " ++ string_of_nat (List.length standbyMembers)
             ++ (if Nat.eqb (List.length standbyMembers) 1
                 then " standby member" else " standby members")
             ++ " to BlueWave shaft prep.")%string
            "Crew")
         (actionSuggestions s))
  /\ (In (Suggestion.Make "Review deductions"
            "Multiple deductions this week - align with contractor rep."
            "Finance")
         (actionSuggestions s)
      <-> (2 <= List.length deductions)%nat).
Proof.
  intros standbyMembers deductions.
  destruct (actionSuggestions_guards s) as [H1 [H2 [H3 [H4 H5]]]].
  pose proof (standby_member_iff s) as Hs.
  split; [exact H1|]. split; [exact H2|]. split; [|split].
  - rewrite H3. exact Hs.
  - intros Hw. apply Hs in Hw. exact (H4 Hw).
  - exact H5.
Qed.

(** * Properties of the handlers *)

Section Handlers.
Variable trim : string -> string.
Variables today uuid : string.

(** X20. With a worker chosen in the form, [handleAddAttendance] puts one
    record at the head of the attendance log, dated today, for that worker
    and with the presence of the form, and gives the first worker that
    carries the id that same presence as status; nothing else in the store
    moves, and the form goes back to its defaults, the worker kept. *)
Theorem handleAddAttendance_syncs_status (draft : AttendanceDraft.t)
  (s : WorkspaceState) (pre post : list Worker.t) (w : Worker.t) :
  AttendanceDraft.workerId draft <> "" ->
  workers s = pre ++ w :: post ->
  Worker.id w = AttendanceDraft.workerId draft ->
  (forall x, In x pre -> Worker.id x <> Worker.id w) ->
  let result := handleAddAttendance trim today uuid draft s in
  (exists record,
      attendance (fst result) = record :: attendance s
      /\ AttendanceRecord.id record = uuid
      /\ AttendanceRecord.workerId record = Worker.id w
      /\ AttendanceRecord.date record = today
      /\ AttendanceRecord.hoursWorked record
         = AttendanceDraft.hoursWorked draft
      /\ AttendanceRecord.presence record = AttendanceDraft.presence draft)
  /\ workers (fst result)
     = pre ++ Worker.set_status (AttendanceDraft.presence draft) w :: post
  /\ contractors (fst result) = contractors s
  /\ payments (fst result) = payments s
  /\ selectedContractorId (fst result) = selectedContractorId s
  /\ snd result
     = AttendanceDraft.Make (AttendanceDraft.workerId draft) 8 present
         (Some "") "".
Proof.
  intros Hne Hw Hid Hpre result. unfold result, handleAddAttendance.
  apply String.eqb_neq in Hne. rewrite Hne. cbn [fst snd].
  split; [|split; [|repeat split]].
  - eexists. split; [reflexivity|]. cbn. rewrite Hid. repeat split.
  - cbn [AttendanceRecord.d_workerId AttendanceRecord.d_presence].
    unfold updateWorkerStatus, addAttendance. cbn [workers].
    rewrite Hw, <- Hid. apply update_first_split.
    + intros y Hy. apply String.eqb_neq. now apply Hpre.
    + apply String.eqb_refl.
Qed.

(** X21. [handleAddAttendance] does nothing when no worker is chosen.  An
    id that no worker carries is not refused: the record is logged all the
    same and the workers stay as they are. *)
Theorem handleAddAttendance_edges (draft : AttendanceDraft.t)
  (s : WorkspaceState) :
  (AttendanceDraft.workerId draft = "" ->
   handleAddAttendance trim today uuid draft s = (s, draft))
  /\ (AttendanceDraft.workerId draft <> "" ->
      (forall w, In w (workers s) ->
                 Worker.id w <> AttendanceDraft.workerId draft) ->
      workers (fst (handleAddAttendance trim today uuid draft s)) = workers s
      /\ List.length
           (attendance (fst (handleAddAttendance trim today uuid draft s)))
         = S (List.length (attendance s))).
Proof.
  unfold handleAddAttendance. split.
  - intros ->. reflexivity.
  - intros Hne Hno. apply String.eqb_neq in Hne. rewrite Hne. cbn [fst].
    split; [|reflexivity].
    unfold updateWorkerStatus, addAttendance. cbn [workers].
    apply update_first_no_match. intros w Hw.
    apply String.eqb_neq. now apply Hno.
Qed.

(** X22. The record [handleAddAttendance] logs carries the trimmed
    remarks of the form when trimming leaves something, and no remarks
    when the form has none or trimming leaves nothing: never the empty
    string.  Its site is the site of the form or, that one being empty, the
    scope of the resolved contractor, or "Site" without one. *)
Theorem handleAddAttendance_record (draft : AttendanceDraft.t)
  (s : WorkspaceState) :
  AttendanceDraft.workerId draft <> "" ->
  exists record,
    attendance (fst (handleAddAttendance trim today uuid draft s))
    = record :: attendance s
    /\ (forall typed,
           AttendanceDraft.remarks draft = Some typed ->
           trim typed <> "" ->
           AttendanceRecord.remarks record = Some (trim typed))
    /\ (forall typed,
           AttendanceDraft.remarks draft = Some typed ->
           trim typed = "" ->
           AttendanceRecord.remarks record = None)
    /\ (AttendanceDraft.remarks draft = None ->
        AttendanceRecord.remarks record = None)
    /\ AttendanceRecord.remarks record <> Some ""
    /\ (AttendanceDraft.site draft <> "" ->
        AttendanceRecord.site record = AttendanceDraft.site draft)
    /\ (AttendanceDraft.site draft = "" ->
        AttendanceRecord.site record
        = match selectedContractor s with
          | Some c => Contractor.scope c
          | None => "Site"
          end).
Proof.
  intros Hne. unfold handleAddAttendance.
  apply String.eqb_neq in Hne. rewrite Hne. cbn [fst].
  eexists. split; [reflexivity|]. cbn.
  split; [|split; [|split; [|split; [|split]]]].
  - intros typed -> Ht. apply String.eqb_neq in Ht. now rewrite Ht.
  - intros typed -> Ht. now rewrite Ht.
  - intros ->. reflexivity.
  - destruct (AttendanceDraft.remarks draft) as [r|]; [|discriminate].
    destruct (String.eqb (trim r) "") eqn:E; [discriminate|].
    apply String.eqb_neq in E. congruence.
  - intros Hs. apply String.eqb_neq in Hs. now rewrite Hs.
  - intros ->. reflexivity.
Qed.

(** X23. [handleAddPayment] does nothing without a worker or with an
    amount of zero.  Otherwise it puts one payment at the head of the
    payments, dated today, with the worker, amount and category of the
    form and a note that is never empty; workers and attendance are not
    touched, and the form goes back to its defaults, the worker kept. *)
Theorem handleAddPayment_effect (draft : PaymentDraft.t) (s : WorkspaceState) :
  (PaymentDraft.workerId draft = "" \/ PaymentDraft.amount draft == 0 ->
   handleAddPayment today uuid draft s = (s, draft))
  /\ (PaymentDraft.workerId draft <> "" ->
      ~ PaymentDraft.amount draft == 0 ->
      exists note,
        note <> Some ""
        /\ (note = None \/ note = PaymentDraft.note draft)
        /\ handleAddPayment today uuid draft s
           = (MkState (contractors s) (workers s) (attendance s)
                (Payment.Make uuid (PaymentDraft.workerId draft)
                   (PaymentDraft.amount draft) today
                   (PaymentDraft.category draft) note
                 :: payments s)
                (selectedContractorId s),
              PaymentDraft.Make (PaymentDraft.workerId draft) 5000 advance
                (Some ""))).
Proof.
  unfold handleAddPayment. split.
  - intros [->|Hz].
    + reflexivity.
    + destruct (truthy (PaymentDraft.amount draft)) eqn:E.
      * apply truthy_nonzero in E. contradiction.
      * now rewrite orb_true_r.
  - intros Hne Hnz. apply String.eqb_neq in Hne.
    apply truthy_nonzero in Hnz. rewrite Hne, Hnz. cbn [orb negb].
    exists (match PaymentDraft.note draft with
            | Some n => if String.eqb n "" then None else Some n
            | None => None
            end).
    split; [|split; [|reflexivity]].
    + destruct (PaymentDraft.note draft) as [n|]; [|discriminate].
      destruct (String.eqb n "") eqn:E; [discriminate|].
      apply String.eqb_neq in E. congruence.
    + destruct (PaymentDraft.note draft) as [n|]; [|now left].
      destruct (String.eqb n ""); [now left | now right].
Qed.
End Handlers.

Lemma handleAddAttendance_syncs_status_witness :
  AttendanceDraft.workerId sampleAttendanceDraft <> ""
  /\ map Worker.status
       (workers (fst (handleAddAttendance sampleTrim "2024-05-14"
                        "7d1e4a90-2c3b-4f58-9e6a-0b1c2d3e4f56"
                        sampleAttendanceDraft (initialState sampleDates))))
     = [present; present; leave; absent].
Proof.
  assert (Hne : AttendanceDraft.workerId sampleAttendanceDraft <> "")
    by discriminate.
  split; [exact Hne|].
  assert (Hpre : forall x, In x (firstn 3 initialWorkers) ->
                           Worker.id x <> "w4").
  { simpl. intros x Hx. intuition (subst; discriminate). }
  exact (f_equal (map Worker.status)
           (proj1 (proj2
              (handleAddAttendance_syncs_status sampleTrim "2024-05-14"
                 "7d1e4a90-2c3b-4f58-9e6a-0b1c2d3e4f56"
                 sampleAttendanceDraft (initialState sampleDates)
                 (firstn 3 initialWorkers) []
                 (Worker.Make "w4" "Lily Chen" "Assistant" 3600 standby None
                    "c2")
                 Hne eq_refl eq_refl Hpre)))).
Defined.

Lemma handleAddAttendance_edges_witness :
  handleAddAttendance sampleTrim "2024-05-14"
    "7d1e4a90-2c3b-4f58-9e6a-0b1c2d3e4f56" defaultAttendanceDraft
    (initialState sampleDates)
  = (initialState sampleDates, defaultAttendanceDraft)
  /\ workers
       (fst (handleAddAttendance sampleTrim "2024-05-14"
               "7d1e4a90-2c3b-4f58-9e6a-0b1c2d3e4f56"
               (AttendanceDraft.Make "w99" 8 present None "Gate")
               (initialState sampleDates)))
     = initialWorkers.
Proof.
  split.
  - apply (proj1 (handleAddAttendance_edges sampleTrim "2024-05-14"
                    "7d1e4a90-2c3b-4f58-9e6a-0b1c2d3e4f56"
                    defaultAttendanceDraft (initialState sampleDates))).
    reflexivity.
  - apply (proj2 (handleAddAttendance_edges sampleTrim "2024-05-14"
                    "7d1e4a90-2c3b-4f58-9e6a-0b1c2d3e4f56"
                    (AttendanceDraft.Make "w99" 8 present None "Gate")
                    (initialState sampleDates))).
    + discriminate.
    + simpl. intros w Hw. intuition (subst; discriminate).
Defined.

Lemma handleAddAttendance_record_witness :
  AttendanceDraft.workerId sampleAttendanceDraft <> ""
  /\ exists record,
       attendance
         (fst (handleAddAttendance sampleTrim "2024-05-14"
                 "7d1e4a90-2c3b-4f58-9e6a-0b1c2d3e4f56"
                 sampleAttendanceDraft (initialState sampleDates)))
       = record :: attendance (initialState sampleDates)
       /\ AttendanceRecord.remarks record = Some "No show".
Proof.
  assert (Hne : AttendanceDraft.workerId sampleAttendanceDraft <> "")
    by discriminate.
  split; [exact Hne|].
  destruct (handleAddAttendance_record sampleTrim "2024-05-14"
              "7d1e4a90-2c3b-4f58-9e6a-0b1c2d3e4f56"
              sampleAttendanceDraft (initialState sampleDates) Hne)
    as [record [Hr [Hkept _]]].
  exists record. split; [exact Hr|].
  apply (Hkept "No show"); [reflexivity | discriminate].
Defined.

Lemma handleAddPayment_effect_witness :
  handleAddPayment "2024-05-14" "c0ffee00-1234-4abc-8def-001122334455"
    (PaymentDraft.Make "w1" 0 advance None) (initialState sampleDates)
  = (initialState sampleDates, PaymentDraft.Make "w1" 0 advance None)
  /\ exists note,
       note <> Some ""
       /\ map Payment.note
            (payments
               (fst (handleAddPayment "2024-05-14"
                       "c0ffee00-1234-4abc-8def-001122334455"
                       samplePaymentDraft (initialState sampleDates))))
          = note :: map Payment.note (initialPayments sampleDates).
Proof.
  split.
  - apply (proj1 (handleAddPayment_effect "2024-05-14"
                    "c0ffee00-1234-4abc-8def-001122334455"
                    (PaymentDraft.Make "w1" 0 advance None)
                    (initialState sampleDates))).
    right. reflexivity.
  - destruct (proj2 (handleAddPayment_effect "2024-05-14"
                       "c0ffee00-1234-4abc-8def-001122334455"
                       samplePaymentDraft (initialState sampleDates)))
      as [note [Hn [_ E]]].
    + discriminate.
    + discriminate.
    + exists note. split; [exact Hn|]. now rewrite E.
Defined.

(** X24. The toggle of a row writes absent over present and present over
    anything else, in the first record that carries the row's id, and
    touches no worker.  Pressed twice it gives back present for present and
    absent for all the rest: a record on leave or standby never returns to
    what it was. *)
Theorem togglePresence_twice (s : WorkspaceState)
  (pre post : list AttendanceRecord.t) (r : AttendanceRecord.t) :
  attendance s = pre ++ r :: post ->
  (forall x, In x pre -> AttendanceRecord.id x <> AttendanceRecord.id r) ->
  attendance (togglePresence r s) = pre ++ toggled r :: post
  /\ AttendanceRecord.presence (toggled r)
     = match AttendanceRecord.presence r with
       | present => absent
       | _ => present
       end
  /\ attendance (togglePresence (toggled r) (togglePresence r s))
     = pre ++ toggled (toggled r) :: post
  /\ AttendanceRecord.presence (toggled (toggled r))
     = match AttendanceRecord.presence r with
       | present => present
       | _ => absent
       end
  /\ workers (togglePresence (toggled r) (togglePresence r s)) = workers s.
Proof.
  intros Hr Hpre.
  assert (H1 : attendance (togglePresence r s) = pre ++ toggled r :: post).
  { unfold togglePresence, updateAttendancePresence. cbn [attendance].
    rewrite Hr.
    rewrite update_first_split; [reflexivity| |apply String.eqb_refl].
    intros y Hy. apply String.eqb_neq. now apply Hpre. }
  split; [exact H1|]. split; [now destruct r as [? ? ? ? []]|].
  split; [|split; [now destruct r as [? ? ? ? []] | reflexivity]].
  unfold togglePresence at 1. unfold updateAttendancePresence.
  cbn [attendance]. rewrite H1.
  change (AttendanceRecord.id (toggled r)) with (AttendanceRecord.id r).
  rewrite update_first_split; [reflexivity| |apply String.eqb_refl].
  intros y Hy. apply String.eqb_neq. now apply Hpre.
Qed.

Lemma togglePresence_twice_witness :
  attendance (initialState sampleDates)
  = firstn 2 (initialAttendance sampleDates)
    ++ AttendanceRecord.Make "a3" "w3" "2024-05-14" 0 leave
         (Some "Family emergency") "Basement shaft"
    :: []
  /\ map AttendanceRecord.presence
       (attendance
          (togglePresence
             (toggled (AttendanceRecord.Make "a3" "w3" "2024-05-14" 0 leave
                         (Some "Family emergency") "Basement shaft"))
             (togglePresence
                (AttendanceRecord.Make "a3" "w3" "2024-05-14" 0 leave
                   (Some "Family emergency") "Basement shaft")
                (initialState sampleDates))))
     = [present; present; absent].
Proof.
  split; [reflexivity|].
  assert (Hpre : forall x, In x (firstn 2 (initialAttendance sampleDates)) ->
                           AttendanceRecord.id x <> "a3").
  { simpl. intros x Hx. intuition (subst; discriminate). }
  exact (f_equal (map AttendanceRecord.presence)
           (proj1 (proj2 (proj2
              (togglePresence_twice (initialState sampleDates)
                 (firstn 2 (initialAttendance sampleDates)) []
                 (AttendanceRecord.Make "a3" "w3" "2024-05-14" 0 leave
                    (Some "Family emergency") "Basement shaft")
                 eq_refl Hpre))))).
Defined.

(** X25. Logging an absence for a member of the crew raises the attendance
    follow-up flag: after [handleAddAttendance] with presence absent the
    flag is among the risk flags. *)
Theorem absence_logged_raises_flag `{DateFns} (now : Date)
  (trim : string -> string) (today uuid : string)
  (draft : AttendanceDraft.t) (s : WorkspaceState) (w : Worker.t) :
  In w (crew s) ->
  Worker.id w = AttendanceDraft.workerId draft ->
  AttendanceDraft.workerId draft <> "" ->
  AttendanceDraft.presence draft = absent ->
  In attendanceFlag
     (keyRisks now (fst (handleAddAttendance trim today uuid draft s))).
Proof.
  intros Hw Hid Hne Hp. unfold handleAddAttendance.
  apply String.eqb_neq in Hne. rewrite Hne.
  cbn [fst AttendanceRecord.d_workerId AttendanceRecord.d_presence].
  set (record := AttendanceRecord.Draft _ _ _ _ _ _).
  set (s1 := addAttendance uuid record s).
  set (s2 := updateWorkerStatus _ _ s1).
  assert (Hcrew : exists w', In w' (crew s2) /\ Worker.id w' = Worker.id w).
  { assert (Hin : In (workerCore w) (map workerCore (crew s2))).
    { unfold s2. rewrite update_first_filter_map_crew. now apply in_map. }
    apply in_map_iff in Hin. destruct Hin as [w' [E Hw']].
    exists w'. split; [exact Hw'|].
    change (Worker.id w') with (Worker.id (workerCore w')). now rewrite E. }
  destruct Hcrew as [w' [Hw' Hid']].
  rewrite keyRisks_blocks, !in_app_iff. right. right.
  match goal with
  | |- In _ (if ?c then _ else _) => assert (E : c = true)
  end.
  { apply filter_nonempty.
    exists (AttendanceRecord.make uuid record). split.
    - apply latestAttendance_In. split; [now left|].
      exists w'. split; [exact Hw'|]. rewrite Hid'. exact Hid.
    - cbn. rewrite Hp. reflexivity. }
  rewrite E. now left.
Qed.

Lemma absence_logged_raises_flag_witness :
  In (Worker.Make "w4" "Lily Chen" "Assistant" 3600 standby None "c2")
     (crew (setSelectedContractor (Some "c2") (initialState sampleDates)))
  /\ In attendanceFlag
        (@keyRisks sampleCalendar sampleNow
           (fst (handleAddAttendance sampleTrim "2024-05-14"
                   "7d1e4a90-2c3b-4f58-9e6a-0b1c2d3e4f56"
                   sampleAttendanceDraft
                   (setSelectedContractor (Some "c2")
                      (initialState sampleDates))))).
Proof.
  assert (Hw : In (Worker.Make "w4" "Lily Chen" "Assistant" 3600 standby None
                     "c2")
                  (crew (setSelectedContractor (Some "c2")
                           (initialState sampleDates)))).
  { right. left. reflexivity. }
  split; [exact Hw|].
  apply (@absence_logged_raises_flag sampleCalendar sampleNow sampleTrim
           "2024-05-14" "7d1e4a90-2c3b-4f58-9e6a-0b1c2d3e4f56"
           sampleAttendanceDraft _ _ Hw).
  - reflexivity.
  - discriminate.
  - reflexivity.
Defined.

(** X26. "Fill Quick Log" leaves the form alone when the crew is empty;
    otherwise it chooses the first crew member, and nothing else in the
    form changes: unless that member's id is the empty string,
    [selectedWorker] is then that member. *)
Theorem fillQuickLog_selects_first (s : WorkspaceState)
  (prev : AttendanceDraft.t) :
  (crew s = [] -> fillQuickLog s prev = prev)
  /\ (forall firstCrew rest,
         crew s = firstCrew :: rest ->
         fillQuickLog s prev
         = AttendanceDraft.Make (Worker.id firstCrew)
             (AttendanceDraft.hoursWorked prev) (AttendanceDraft.presence prev)
             (AttendanceDraft.remarks prev) (AttendanceDraft.site prev)
         /\ (Worker.id firstCrew <> "" ->
             selectedWorker (fillQuickLog s prev) s = Some firstCrew)
         /\ (Worker.id firstCrew = "" ->
             selectedWorker (fillQuickLog s prev) s = None)).
Proof.
  unfold fillQuickLog, selectedWorker. split.
  - intros ->. reflexivity.
  - intros firstCrew rest E. rewrite E. cbn [AttendanceDraft.workerId].
    split; [reflexivity|]. split.
    + intros Hne. apply String.eqb_neq in Hne. rewrite Hne.
      cbn [find]. now rewrite String.eqb_refl.
    + intros ->. reflexivity.
Qed.

Lemma fillQuickLog_selects_first_witness :
  crew (initialState sampleDates)
  = Worker.Make "w1" "Priya Sharma" "Pipe Fitter" 4200 present
      (Some "+91 98765 43210") "c1"
    :: skipn 1 (crew (initialState sampleDates))
  /\ AttendanceDraft.workerId
       (fillQuickLog (initialState sampleDates) defaultAttendanceDraft)
     = "w1".
Proof.
  split; [reflexivity|].
  exact (f_equal AttendanceDraft.workerId
           (proj1 (proj2 (fillQuickLog_selects_first
                            (initialState sampleDates) defaultAttendanceDraft)
                         _ _ eq_refl))).
Defined.
